(** * Server actions of the dashboard

    A shallow embedding of the ['use server'] module of the repository (the
    second document of [src/app/dashboard/customers/page.tsx]): the zod
    schemas, the seven mutation handlers ([createInvoice], [updateInvoice],
    [deleteInvoice], [createCustomer], [updateCustomer], [deleteCustomer],
    [createUser]) and the [authenticate] adapter, followed by the properties
    the specification states about them.

    Library behaviour the handlers rely on is modelled next to the code that
    uses it: [FormData.get], JavaScript's [Number] coercion and [*] on
    IEEE-754 doubles (Rocq's primitive floats), [Date.prototype.toISOString],
    [String.prototype.split], zod 3's [safeParse] with its default messages
    and [flatten], and the way an [async] function runs: synchronously up to
    its first [await]. *)

From Stdlib Require Import ZArith List Bool Ascii String Lia QArith.
From Stdlib Require Import Floats DecimalString.
Import ListNotations.

Local Open Scope string_scope.
Local Open Scope Z_scope.

(* ================================================================== *)
(** * Form submissions *)

(** The JavaScript values the handlers pass around.  Strings are sequences
    of one-byte characters; of a [File] only the name is kept. *)
Inductive JsValue : Type :=
| Undefined
| Null
| Str (s : string)
| Num (x : float)
| FileObject (name : string).

(** An object literal: its properties in insertion order. *)
Definition JsObject : Type := list (string * JsValue).

(** [o.key] (and destructuring): [undefined] when the property is absent. *)
Fixpoint prop (o : JsObject) (key : string) : JsValue :=
  match o with
  | [] => Undefined
  | (k, v) :: rest => if String.eqb k key then v else prop rest key
  end.

(** A [FormDataEntryValue] is a string or a [File]. *)
Inductive FormDataEntryValue : Type :=
| EntryString (s : string)
| EntryFile (name : string).

(** A [FormData] is an ordered list of entries; names may repeat. *)
Definition FormData : Type := list (string * FormDataEntryValue).

Definition entry_value (e : FormDataEntryValue) : JsValue :=
  match e with
  | EntryString s => Str s
  | EntryFile name => FileObject name
  end.

(** [formData.get(name)]: the first entry of that name, or [null]. *)
Fixpoint get (formData : FormData) (name : string) : JsValue :=
  match formData with
  | [] => Null
  | (k, e) :: rest => if String.eqb k name then entry_value e else get rest name
  end.

(* ================================================================== *)
(** * JavaScript numbers *)

Module JsNumber.

(** ** [StringToNumber] *)

Definition is_white_space (c : ascii) : bool :=
  let n := nat_of_ascii c in
  ((9 <=? n) && (n <=? 13))%nat || (n =? 32)%nat.

Fixpoint trim_start (s : list ascii) : list ascii :=
  match s with
  | c :: rest => if is_white_space c then trim_start rest else s
  | [] => []
  end.

Definition trim (s : list ascii) : list ascii :=
  rev (trim_start (rev (trim_start s))).

(** The value of a digit in a radix up to 16, if it is one. *)
Definition digit_value (radix : Z) (c : ascii) : option Z :=
  let n := Z.of_nat (nat_of_ascii c) in
  let v :=
    if (48 <=? n) && (n <=? 57) then Some (n - 48)
    else if (97 <=? n) && (n <=? 102) then Some (n - 87)
    else if (65 <=? n) && (n <=? 70) then Some (n - 55)
    else None in
  match v with
  | Some d => if d <? radix then Some d else None
  | None => None
  end.

(** Reads the longest prefix of digits: its value continuing [acc], the
    number of digits read, and the rest. *)
Fixpoint read_digits (radix : Z) (s : list ascii) (acc : Z) (count : Z)
  : Z * Z * list ascii :=
  match s with
  | c :: rest =>
      match digit_value radix c with
      | Some d => read_digits radix rest (acc * radix + d) (count + 1)
      | None => (acc, count, s)
      end
  | [] => (acc, count, [])
  end.

(** [p / q] for [0 < p] and [0 < q], rounded to the nearest double, ties
    to even: the quotient is taken with at least 64 significant bits and a
    sticky bit, and [binary_normalize] rounds it once. *)
Definition round_ratio (p q : Z) : spec_float :=
  let s := Z.max 0 (64 + Z.log2 q - Z.log2 p) in
  let n := Z.shiftl p s in
  let m := n / q in
  let sticky := if n mod q =? 0 then 0 else 1 in
  binary_normalize prec emax (2 * m + sticky) (- s - 1) false.

(** The double nearest to [m * 10 ^ e], for [0 <= m]. *)
Definition round_decimal (m e : Z) : spec_float :=
  if m =? 0 then S754_zero false
  else if 0 <=? e then binary_normalize prec emax (m * 10 ^ e) 0 false
  else round_ratio m (10 ^ (- e)).

Definition with_sign (negative : bool) (x : float) : float :=
  if negative then (- x)%float else x.

(** An optional exponent part [e[+-]digits]; [None] when what follows is
    not one or something is left over. *)
Definition read_exponent (s : list ascii) : option Z :=
  match s with
  | [] => Some 0
  | c :: rest =>
      if Ascii.eqb c "e" || Ascii.eqb c "E" then
        let '(negative, rest1) :=
          match rest with
          | "-"%char :: r => (true, r)
          | "+"%char :: r => (false, r)
          | _ => (false, rest)
          end in
        match read_digits 10 rest1 0 0 with
        | (v, count, []) =>
            if 0 <? count then Some (if negative then - v else v) else None
        | _ => None
        end
      else None
  end.

(** [StrUnsignedDecimalLiteral]: [Infinity], [digits . digits? exp?],
    [. digits exp?] or [digits exp?]. *)
Definition unsigned_decimal (s : list ascii) : option float :=
  if list_eq_dec ascii_dec s (list_ascii_of_string "Infinity") then Some infinity
  else
    let '(int_part, int_count, rest) := read_digits 10 s 0 0 in
    let '(mantissa, frac_count, rest1) :=
      match rest with
      | "."%char :: r => read_digits 10 r int_part 0
      | _ => (int_part, 0, rest)
      end in
    if 0 <? int_count + frac_count then
      match read_exponent rest1 with
      | Some e => Some (SF2Prim (round_decimal mantissa (e - frac_count)))
      | None => None
      end
    else None.

(** [0x], [0o] and [0b] integer literals, which take no sign. *)
Definition non_decimal (s : list ascii) : option float :=
  match s with
  | "0"%char :: c :: rest =>
      let radix :=
        if Ascii.eqb c "x" || Ascii.eqb c "X" then Some 16
        else if Ascii.eqb c "o" || Ascii.eqb c "O" then Some 8
        else if Ascii.eqb c "b" || Ascii.eqb c "B" then Some 2
        else None in
      match radix with
      | Some r =>
          match read_digits r rest 0 0 with
          | (v, count, []) =>
              if 0 <? count then Some (SF2Prim (round_decimal v 0)) else None
          | _ => None
          end
      | None => None
      end
  | _ => None
  end.

(** [Number(s)] for a string [s]. *)
Definition of_string (s : string) : float :=
  let t := trim (list_ascii_of_string s) in
  match t with
  | [] => zero
  | c :: rest =>
      match non_decimal t with
      | Some x => x
      | None =>
          let '(negative, body) :=
            if Ascii.eqb c "-" then (true, rest)
            else if Ascii.eqb c "+" then (false, rest)
            else (false, t) in
          match unsigned_decimal body with
          | Some x => with_sign negative x
          | None => nan
          end
      end
  end.

(** [Number(v)]: [undefined] is [NaN], [null] is [+0], and a [File]
    converts through its string form ["[object File]"], which is no
    numeric literal. *)
Definition ToNumber (v : JsValue) : float :=
  match v with
  | Undefined => nan
  | Null => zero
  | Str s => of_string s
  | Num x => x
  | FileObject _ => nan
  end.

(** [a * b]: both operands converted, then the IEEE-754 product. *)
Definition mul (a b : JsValue) : JsValue :=
  Num (ToNumber a * ToNumber b)%float.

(** The exact rational value of a finite double. *)
Definition exact_value (x : float) : option Q :=
  match Prim2SF x with
  | S754_zero _ => Some 0%Q
  | S754_finite s m e =>
      let v := if 0 <=? e then inject_Z (Zpos m * 2 ^ e)
               else Qmake (Zpos m) (Z.to_pos (2 ^ (- e))) in
      Some (if s then Qopp v else v)
  | _ => None
  end.

End JsNumber.

(* ================================================================== *)
(** * Strings and dates *)

Module JsString.

(** [s.split(sep)] for a separator of one character: the pieces between
    the occurrences of [sep]; never empty. *)
Fixpoint split (sep : ascii) (s : string) : list string :=
  match s with
  | EmptyString => [""]
  | String c rest =>
      if Ascii.eqb c sep then "" :: split sep rest
      else
        match split sep rest with
        | piece :: pieces => String c piece :: pieces
        | [] => [String c ""]
        end
  end.

(** [a[0]] of an array of strings ([undefined] never arises on the
    results of [split]). *)
Definition first (a : list string) : string := hd "" a.

End JsString.

Module JsDate.

Definition msPerDay : Z := 86400000.

(** [Day(t)] and [TimeWithinDay(t)] of a time value [t], in milliseconds
    since the epoch, UTC. *)
Definition Day (t : Z) : Z := t / msPerDay.
Definition TimeWithinDay (t : Z) : Z := t mod msPerDay.

(** Year, month (1 to 12) and day of the month of a day number, in the
    proleptic Gregorian calendar. *)
Definition civil (day : Z) : Z * Z * Z :=
  let z := day + 719468 in
  let era := z / 146097 in
  let doe := z mod 146097 in
  let yoe := (doe - doe / 1460 + doe / 36524 - doe / 146096) / 365 in
  let doy := doe - (365 * yoe + yoe / 4 - yoe / 100) in
  let mp := (5 * doy + 2) / 153 in
  let d := doy - (153 * mp + 2) / 5 + 1 in
  let m := if mp <? 10 then mp + 3 else mp - 9 in
  let y := yoe + era * 400 + (if m <=? 2 then 1 else 0) in
  (y, m, d).

Definition digit (d : Z) : ascii := ascii_of_nat (48 + Z.to_nat (d mod 10)).

(** The last [width] decimal digits of [n], zero-padded. *)
Fixpoint pad (width : nat) (n : Z) : string :=
  match width with
  | O => ""
  | S w => pad w (n / 10) ++ String (digit n) ""
  end.

(** Years 0 to 9999 take four digits, the others a sign and six. *)
Definition year_string (y : Z) : string :=
  if (0 <=? y) && (y <=? 9999) then pad 4 y
  else (if y <? 0 then "-" else "+") ++ pad 6 (Z.abs y).

(** The calendar date [YYYY-MM-DD] of a time value. *)
Definition date_string (t : Z) : string :=
  let '(y, m, d) := civil (Day t) in
  year_string y ++ "-" ++ pad 2 m ++ "-" ++ pad 2 d.

Definition time_string (t : Z) : string :=
  let ms := TimeWithinDay t in
  pad 2 (ms / 3600000) ++ ":" ++ pad 2 (ms / 60000 mod 60) ++ ":"
    ++ pad 2 (ms / 1000 mod 60) ++ "." ++ pad 3 (ms mod 1000).

(** [new Date(t).toISOString()]: [YYYY-MM-DDTHH:mm:ss.sssZ]. *)
Definition toISOString (t : Z) : string :=
  date_string t ++ "T" ++ time_string t ++ "Z".

End JsDate.

(* ================================================================== *)
(** * zod *)

Module Zod.

(** The checks chained on [z.string()]: [.min(n, {message})] and
    [.email({message})].  The pattern of [.email] is zod's own and differs
    between its releases, so the check carries it as [matches]. *)
Inductive StringCheck : Type :=
| Min (n : nat) (message : option string)
| Email (matches : string -> bool) (message : option string).

(** [.gt(value, {message})] on [z.number()]. *)
Inductive NumberCheck : Type :=
| Gt (value : float) (message : string).

(** The schema constructors the file uses: [z.string({invalid_type_error})],
    [z.coerce.number()], [z.enum(values, {invalid_type_error})] and
    [.optional()]. *)
Inductive ZodType : Type :=
| ZString (invalid_type_error : option string) (checks : list StringCheck)
| ZCoerceNumber (checks : list NumberCheck)
| ZEnum (values : list string) (invalid_type_error : option string)
| ZOptional (inner : ZodType).

(** [z.object({...})]: the shape, in the order it is written. *)
Definition ZodObject : Type := list (string * ZodType).

Definition keys (schema : ZodObject) : list string := map fst schema.

(** [schema.omit({k: true, ...})]. *)
Definition omit (mask : list string) (schema : ZodObject) : ZodObject :=
  filter (fun field => negb (existsb (String.eqb (fst field)) mask)) schema.

(** [getParsedType] on the values that occur. *)
Definition parsed_type (v : JsValue) : string :=
  match v with
  | Undefined => "undefined"
  | Null => "null"
  | Str _ => "string"
  | Num x => if PrimFloat.is_nan x then "nan" else "number"
  | FileObject _ => "object"
  end.

(** The message of an [invalid_type] issue: ["Required"] for [undefined],
    else the schema's [invalid_type_error], else the default text. *)
Definition invalid_type (expected : string) (custom : option string)
  (v : JsValue) : string :=
  match v with
  | Undefined => "Required"
  | _ =>
      match custom with
      | Some m => m
      | None => "Expected " ++ expected ++ ", received " ++ parsed_type v
      end
  end.

Definition decimal (n : nat) : string :=
  NilEmpty.string_of_uint (Nat.to_uint n).

Definition string_check (s : string) (c : StringCheck) : list string :=
  match c with
  | Min n message =>
      if (String.length s <? n)%nat then
        [match message with
         | Some m => m
         | None => "String must contain at least " ++ decimal n ++ " character(s)"
         end]
      else []
  | Email matches message =>
      if matches s then []
      else [match message with Some m => m | None => "Invalid email" end]
  end.

(** A check [.gt(value)] raises [too_small] when [data <= value]. *)
Definition number_check (x : float) (c : NumberCheck) : list string :=
  match c with
  | Gt value message => if PrimFloat.leb x value then [message] else []
  end.

(** [joinValues]: ['a' | 'b']. *)
Fixpoint join_values (values : list string) : string :=
  match values with
  | [] => ""
  | [v] => "'" ++ v ++ "'"
  | v :: rest => "'" ++ v ++ "' | " ++ join_values rest
  end.

Inductive ParseReturn : Type :=
| Valid (value : JsValue)
| Invalid (messages : list string).

(** [schema._parse(v)]: the parsed value, or the messages of the issues
    raised, in order. *)
Fixpoint parse (schema : ZodType) (v : JsValue) : ParseReturn :=
  match schema with
  | ZString custom checks =>
      match v with
      | Str s =>
          match flat_map (string_check s) checks with
          | [] => Valid (Str s)
          | messages => Invalid messages
          end
      | _ => Invalid [invalid_type "string" custom v]
      end
  | ZCoerceNumber checks =>
      let x := JsNumber.ToNumber v in
      if PrimFloat.is_nan x then Invalid [invalid_type "number" None (Num x)]
      else
        match flat_map (number_check x) checks with
        | [] => Valid (Num x)
        | messages => Invalid messages
        end
  | ZEnum values custom =>
      match v with
      | Str s =>
          if existsb (String.eqb s) values then Valid (Str s)
          else Invalid ["Invalid enum value. Expected " ++ join_values values
                          ++ ", received '" ++ s ++ "'"]
      | _ => Invalid [invalid_type (join_values values) custom v]
      end
  | ZOptional inner =>
      match v with
      | Undefined => Valid Undefined
      | _ => parse inner v
      end
  end.

(** An issue of a [ZodError]: the key it is under and its message. *)
Record ZodIssue : Type := { path : string; message : string }.

Inductive SafeParseReturn : Type :=
| Success (data : JsObject)
| Failure (error : list ZodIssue).

(** Parses every key of the shape on the property of that name of the
    input; keys the shape does not have are stripped. *)
Fixpoint parse_object (schema : ZodObject) (input : JsObject)
  : JsObject * list ZodIssue :=
  match schema with
  | [] => ([], [])
  | (key, type) :: rest =>
      let '(data, issues) := parse_object rest input in
      match parse type (prop input key) with
      | Valid value => ((key, value) :: data, issues)
      | Invalid messages =>
          (data, (map (fun m => {| path := key; message := m |}) messages ++ issues)%list)
      end
  end.

(** [schema.safeParse(input)]. *)
Definition safeParse (schema : ZodObject) (input : JsObject) : SafeParseReturn :=
  match parse_object schema input with
  | (data, []) => Success data
  | (_, issues) => Failure issues
  end.

(** The per-field error map: each key with its messages, keys in the
    order of their first issue. *)
Definition FieldErrors : Type := list (string * list string).

Fixpoint push (errors : FieldErrors) (key message : string) : FieldErrors :=
  match errors with
  | [] => [(key, [message])]
  | (k, messages) :: rest =>
      if String.eqb k key then (k, (messages ++ [message])%list) :: rest
      else (k, messages) :: push rest key message
  end.

(** [error.flatten().fieldErrors]. *)
Definition fieldErrors (error : list ZodIssue) : FieldErrors :=
  fold_left (fun errors issue => push errors (path issue) (message issue)) error [].

(** Whether a schema takes a value, and the value it then yields. *)
Definition accepts (schema : ZodType) (v : JsValue) : bool :=
  match parse schema v with
  | Valid _ => true
  | Invalid _ => false
  end.

Definition parsed (schema : ZodType) (v : JsValue) : JsValue :=
  match parse schema v with
  | Valid value => value
  | Invalid _ => Undefined
  end.

End Zod.

(* ================================================================== *)
(** * Asynchronous functions and their effects *)

(** What can be thrown: a next-auth [AuthError] with its [type], the
    [NEXT_REDIRECT] error that [redirect(url)] throws to transfer control,
    or anything else. *)
Inductive JsError : Type :=
| AuthError (type : string)
| NextRedirect (url : string)
| OtherError (description : string).

(** How a promise settles. *)
Inductive Completion (A : Type) : Type :=
| Fulfilled (value : A)
| Rejected (reason : JsError).
Arguments Fulfilled {A} value.
Arguments Rejected {A} reason.

(** The [sql] templates of the file; the interpolated values are bound as
    parameters, in the order they are written. *)
Inductive Statement : Type :=
| InsertInvoice       (* INSERT INTO invoices (customer_id, amount, status, date) VALUES ($1, $2, $3, $4) *)
| UpdateInvoiceById   (* UPDATE invoices SET customer_id = $1, amount = $2, status = $3 WHERE id = $4 *)
| DeleteInvoiceById   (* DELETE FROM invoices WHERE id = $1 *)
| InsertCustomer      (* INSERT INTO customers (name, email, image_url) VALUES ($1, $2, $3) *)
| UpdateCustomerById  (* UPDATE customers SET name = $1, email = $2, image_url = $3 WHERE id = $4 *)
| DeleteCustomerById  (* DELETE FROM customers WHERE id = $1 *)
| InsertUser.         (* INSERT INTO users (email, password, name) VALUES ($1, $2, $3) *)

(** The promise-returning calls to collaborators. *)
Inductive External : Type :=
| Sql (statement : Statement) (values : list JsValue)
| BcryptHash (data : JsValue) (rounds : Z)
| SignIn (provider : string) (formData : FormData).

(** The synchronous calls that leave a mark outside the function. *)
Inductive Effect : Type :=
| RevalidatePath (path : string)
| ConsoleLog (arguments : list JsValue).

(** The body of an [async] function returning [A]: it returns, throws, makes
    a synchronous call, reads the clock ([new Date()]), awaits a call, or
    calls another [async] function and drops its promise ([Forget]). *)
Inductive Async (A : Type) : Type :=
| Return (value : A)
| Throw (reason : JsError)
| Perform (effect : Effect) (k : Async A)
| NewDate (k : Z -> Async A)
| Await (call : External) (k : Completion JsValue -> Async A)
| Forget (B : Type) (promise : Async B) (k : Async A).
Arguments Return {A} value.
Arguments Throw {A} reason.
Arguments Perform {A} effect k.
Arguments NewDate {A} k.
Arguments Await {A} call k.
Arguments Forget {A B} promise k.

Fixpoint bind {A B : Type} (t : Async A) (f : A -> Async B) : Async B :=
  match t with
  | Return value => f value
  | Throw reason => Throw reason
  | Perform effect k => Perform effect (bind k f)
  | NewDate k => NewDate (fun now => bind (k now) f)
  | Await call k => Await call (fun c => bind (k c) f)
  | Forget promise k => Forget promise (bind k f)
  end.

Notation "x <- t ;; k" := (bind t (fun x => k))
  (at level 100, t at next level, right associativity).
Notation "t ;;; k" := (bind t (fun _ => k))
  (at level 100, right associativity).

(** [try { body } catch (error) { handler }]: what [body] throws, a rejected
    promise it awaits included, goes to [handler]; a promise it dropped is
    out of its reach. *)
Fixpoint try_catch {A : Type} (body : Async A) (handler : JsError -> Async A)
  : Async A :=
  match body with
  | Return value => Return value
  | Throw reason => handler reason
  | Perform effect k => Perform effect (try_catch k handler)
  | NewDate k => NewDate (fun now => try_catch (k now) handler)
  | Await call k => Await call (fun c => try_catch (k c) handler)
  | Forget promise k => Forget promise (try_catch k handler)
  end.

(** [await call]: the value of the promise, or its reason thrown. *)
Definition await (call : External) : Async JsValue :=
  Await call (fun c =>
    match c with
    | Fulfilled value => Return value
    | Rejected reason => Throw reason
    end).

Definition revalidatePath (path : string) : Async unit :=
  Perform (RevalidatePath path) (Return tt).

Definition console_log (arguments : list JsValue) : Async unit :=
  Perform (ConsoleLog arguments) (Return tt).

(** [redirect(url)] never returns: it throws [NEXT_REDIRECT]. *)
Definition redirect {A : Type} (url : string) : Async A :=
  Throw (NextRedirect url).

(** The collaborators of one request: how the database answers a statement,
    the clock (milliseconds since the epoch), the salted hash bcrypt
    produces, and how the identity provider answers. *)
Record World : Type := {
  sql : Statement -> list JsValue -> Completion JsValue;
  clock : Z;
  bcrypt : string -> Z -> string;
  signIn : string -> FormData -> Completion JsValue
}.

Definition settle (w : World) (call : External) : Completion JsValue :=
  match call with
  | Sql statement values => sql w statement values
  | BcryptHash (Str data) rounds => Fulfilled (Str (bcrypt w data rounds))
  | BcryptHash _ _ => Rejected (OtherError "data and salt arguments required")
  | SignIn provider formData => signIn w provider formData
  end.

(** What an observer sees, in order: the calls made and the effects. *)
Inductive Event : Type :=
| Called (call : External)
| Did (effect : Effect).

(** A dropped promise whose function stopped at an [await]: the call it
    waits for and what it does once that call settles. *)
Inductive Suspended : Type :=
| Suspend (B : Type) (call : External) (k : Completion JsValue -> Async B).
Arguments Suspend {B} call k.

(** A call to an [async] function whose promise is not awaited: the function
    runs synchronously up to its first [await] and the caller goes on; the
    rest of it can only run after the caller's synchronous code is over. *)
Fixpoint start {B : Type} (w : World) (t : Async B) : list Event * list Suspended :=
  match t with
  | Return _ => ([], [])
  | Throw _ => ([], [])
  | Perform effect k =>
      let '(events, suspended) := start w k in (Did effect :: events, suspended)
  | NewDate k => start w (k (clock w))
  | Await call k => ([Called call], [Suspend call k])
  | Forget promise k =>
      let '(events1, suspended1) := start w promise in
      let '(events2, suspended2) := start w k in
      ((events1 ++ events2)%list, (suspended1 ++ suspended2)%list)
  end.

(** One run of an awaited [async] function: the events up to the moment its
    promise settles, how it settles, and the dropped promises still
    suspended at that moment. *)
Record Run (A : Type) : Type := {
  trace : list Event;
  completion : Completion A;
  pending : list Suspended
}.
Arguments trace {A} r.
Arguments completion {A} r.
Arguments pending {A} r.

Definition before {A : Type} (events : list Event) (suspended : list Suspended)
  (r : Run A) : Run A :=
  {| trace := (events ++ trace r)%list;
     completion := completion r;
     pending := (suspended ++ pending r)%list |}.

(** No function of the file awaits after it dropped a promise, so a
    suspended function is never resumed within the run. *)
Fixpoint exec {A : Type} (w : World) (t : Async A) : Run A :=
  match t with
  | Return value => {| trace := []; completion := Fulfilled value; pending := [] |}
  | Throw reason => {| trace := []; completion := Rejected reason; pending := [] |}
  | Perform effect k => before [Did effect] [] (exec w k)
  | NewDate k => exec w (k (clock w))
  | Await call k => before [Called call] [] (exec w (k (settle w call)))
  | Forget promise k =>
      let '(events, suspended) := start w promise in
      before events suspended (exec w k)
  end.

(* ================================================================== *)
(** * The schemas and the handlers *)

(** [InvoiceState], [CustomerState] and [UserState]: an optional per-field
    error map and an optional message. *)
Record State : Type := {
  errors : option Zod.FieldErrors;
  message : option string
}.

Definition InvoiceState : Type := State.
Definition CustomerState : Type := State.
Definition UserState : Type := State.

(** A simple address pattern, [local@label.label...], to run the customer
    and user handlers on concrete submissions. *)
Definition plain_email (s : string) : bool :=
  match JsString.split "@" s with
  | [local; domain] =>
      negb (String.eqb local "")
      && (2 <=? List.length (JsString.split "." domain))%nat
      && forallb (fun label => negb (String.eqb label "")) (JsString.split "." domain)
  | _ => false
  end.

Section Actions.

(** The pattern behind [z.string().email()] in the zod release in use. *)
Variable is_email : string -> bool.

Definition UserSchema : Zod.ZodObject :=
  [ ("id", Zod.ZString None []);
    ("name", Zod.ZString None []);
    ("email", Zod.ZString None [Zod.Email is_email None]);
    ("password", Zod.ZString None [Zod.Min 8 None]);
    ("created_at", Zod.ZString None []) ].

Definition InvoiceFormSchema : Zod.ZodObject :=
  [ ("id", Zod.ZString None []);
    ("customerId", Zod.ZString (Some "Please select a customer.") []);
    ("amount", Zod.ZCoerceNumber
                 [Zod.Gt zero "Please enter an amount greater than $0."]);
    ("status", Zod.ZEnum ["pending"; "paid"]
                 (Some "Please select an invoice status."));
    ("date", Zod.ZString None []) ].

Definition CustomerFormSchema : Zod.ZodObject :=
  [ ("id", Zod.ZString None []);
    ("name", Zod.ZString None [Zod.Min 4 (Some "Please enter your full name.")]);
    ("email", Zod.ZString None
                [Zod.Email is_email (Some "Please enter a valid email address.")]);
    ("image", Zod.ZOptional (Zod.ZString None [])) ].

Definition CreateCustomer : Zod.ZodObject := Zod.omit ["id"] CustomerFormSchema.
Definition CreateInvoice : Zod.ZodObject := Zod.omit ["id"; "date"] InvoiceFormSchema.
Definition CreateUser : Zod.ZodObject := Zod.omit ["id"; "created_at"] UserSchema.
Definition UpdateInvoice : Zod.ZodObject := Zod.omit ["id"; "date"] InvoiceFormSchema.

(** The object a handler returns when validation fails. *)
Definition invalid (error : list Zod.ZodIssue) (text : string) : State :=
  {| errors := Some (Zod.fieldErrors error); message := Some text |}.

(** The object [{ message }], without [errors]. *)
Definition only_message (text : string) : State :=
  {| errors := None; message := Some text |}.

(** [try { await sql`...` } catch (error) { return { message } }]: [Some]
    of what the [catch] returns, [None] when control leaves the [try]. *)
Definition try_sql (statement : Statement) (values : list JsValue)
  (failure : string) : Async (option State) :=
  try_catch (await (Sql statement values) ;;; Return None)
            (fun error => Return (Some (only_message failure))).

Definition createInvoice (prevState : InvoiceState) (formData : FormData)
  : Async State :=
  let validatedFields :=
    Zod.safeParse CreateInvoice
      [ ("customerId", get formData "customerId");
        ("amount", get formData "amount");
        ("status", get formData "status") ] in
  match validatedFields with
  | Zod.Failure error =>
      Return (invalid error "Missing Fields. Failed to Create Invoice.")
  | Zod.Success data =>
      let customerId := prop data "customerId" in
      let amount := prop data "amount" in
      let status := prop data "status" in
      let amountInCents := JsNumber.mul amount (Num 100) in
      NewDate (fun now =>
        let date := Str (JsString.first (JsString.split "T" (JsDate.toISOString now))) in
        returned <- try_sql InsertInvoice [customerId; amountInCents; status; date]
                      "Database Error: Failed to Create Invoice." ;;
        match returned with
        | Some result => Return result
        | None =>
            revalidatePath "/dashboard/invoices" ;;;
            redirect "/dashboard/invoices"
        end)
  end.

Definition updateInvoice (id : string) (prevState : InvoiceState)
  (formData : FormData) : Async State :=
  let validatedFields :=
    Zod.safeParse UpdateInvoice
      [ ("customerId", get formData "customerId");
        ("amount", get formData "amount");
        ("status", get formData "status") ] in
  match validatedFields with
  | Zod.Failure error =>
      Return (invalid error "Missing Fields. Failed to Update Invoice.")
  | Zod.Success data =>
      let customerId := prop data "customerId" in
      let amount := prop data "amount" in
      let status := prop data "status" in
      let amountInCents := JsNumber.mul amount (Num 100) in
      returned <- try_sql UpdateInvoiceById [customerId; amountInCents; status; Str id]
                    "Database Error: Failed to Update Invoice." ;;
      match returned with
      | Some result => Return result
      | None =>
          revalidatePath "/dashboard/invoices" ;;;
          redirect "/dashboard/invoices"
      end
  end.

Definition deleteInvoice (id : string) : Async State :=
  try_catch
    (await (Sql DeleteInvoiceById [Str id]) ;;;
     revalidatePath "/dashboard/invoices" ;;;
     Return (only_message "Deleted Invoice."))
    (fun error => Return (only_message "Database Error: Failed to Delete Invoice.")).

Definition createCustomer (prevState : CustomerState) (formData : FormData)
  : Async State :=
  let validatedFields :=
    Zod.safeParse CreateCustomer
      [ ("name", get formData "name");
        ("email", get formData "email");
        ("image", get formData "image") ] in
  match validatedFields with
  | Zod.Failure error =>
      Return (invalid error "Missing Fields. Failed to Create Customer.")
  | Zod.Success data =>
      let name := prop data "name" in
      let email := prop data "email" in
      let image := prop data "image" in
      returned <- try_sql InsertCustomer [name; email; image]
                    "Database Error: Failed to Create Customer." ;;
      match returned with
      | Some result => Return result
      | None =>
          revalidatePath "/dashboard/customers" ;;;
          redirect "/dashboard/customers"
      end
  end.

Definition updateCustomer (id : string) (prevState : CustomerState)
  (formData : FormData) : Async State :=
  let validatedFields :=
    Zod.safeParse CustomerFormSchema
      [ ("name", get formData "name");
        ("email", get formData "email");
        ("image", get formData "image") ] in
  match validatedFields with
  | Zod.Failure error =>
      Return (invalid error "Missing Fields. Failed to Update Customer.")
  | Zod.Success data =>
      let name := prop data "name" in
      let email := prop data "email" in
      let image := prop data "image" in
      returned <- try_sql UpdateCustomerById [name; email; image; Str id]
                    "Database Error: Failed to Update Customer." ;;
      match returned with
      | Some result => Return result
      | None =>
          revalidatePath "/dashboard/customers" ;;;
          redirect "/dashboard/customers"
      end
  end.

Definition deleteCustomer (id : string) : Async State :=
  try_catch
    (await (Sql DeleteCustomerById [Str id]) ;;;
     revalidatePath "/dashboard/customers" ;;;
     Return (only_message "Deleted Customer."))
    (fun error => Return (only_message "Database Error: Failed to Delete Customer.")).

Definition authenticate (prevState : option string) (formData : FormData)
  : Async JsValue :=
  try_catch
    (await (SignIn "credentials" formData) ;;; Return Undefined)
    (fun error =>
       match error with
       | AuthError type =>
           if String.eqb type "CredentialsSignin" then Return (Str "Invalid credentials.")
           else Return (Str "Something went wrong.")
       | _ => Throw error
       end).

Definition createUser (prevState : UserState) (formData : FormData)
  : Async State :=
  let validatedFields :=
    Zod.safeParse CreateUser
      [ ("name", get formData "name");
        ("email", get formData "email");
        ("password", get formData "password") ] in
  match validatedFields with
  | Zod.Failure error =>
      Return (invalid error "Missing Fields. Failed to Create User.")
  | Zod.Success data =>
      let name := prop data "name" in
      let email := prop data "email" in
      let password := prop data "password" in
      hashedPassword <- await (BcryptHash password 10) ;;
      console_log [email; hashedPassword] ;;;
      returned <- try_sql InsertUser [email; hashedPassword; name]
                    "Database Error: Failed to Create User." ;;
      match returned with
      | Some result => Return result
      | None =>
          Forget (authenticate None formData)
            (revalidatePath "/dashboard" ;;;
             redirect "/dashboard")
      end
  end.

(** ** The handlers as one family *)

Inductive Handler : Type :=
| CreateInvoiceHandler
| UpdateInvoiceHandler
| DeleteInvoiceHandler
| CreateCustomerHandler
| UpdateCustomerHandler
| DeleteCustomerHandler
| CreateUserHandler.

(** A call of a handler; [id] and [prevState] go to those that take them. *)
Definition call (h : Handler) (id : string) (prevState : State)
  (formData : FormData) : Async State :=
  match h with
  | CreateInvoiceHandler => createInvoice prevState formData
  | UpdateInvoiceHandler => updateInvoice id prevState formData
  | DeleteInvoiceHandler => deleteInvoice id
  | CreateCustomerHandler => createCustomer prevState formData
  | UpdateCustomerHandler => updateCustomer id prevState formData
  | DeleteCustomerHandler => deleteCustomer id
  | CreateUserHandler => createUser prevState formData
  end.

(** The schema a handler validates with; the delete handlers have none. *)
Definition schema_of (h : Handler) : option Zod.ZodObject :=
  match h with
  | CreateInvoiceHandler => Some CreateInvoice
  | UpdateInvoiceHandler => Some UpdateInvoice
  | CreateCustomerHandler => Some CreateCustomer
  | UpdateCustomerHandler => Some CustomerFormSchema
  | CreateUserHandler => Some CreateUser
  | DeleteInvoiceHandler | DeleteCustomerHandler => None
  end.

(** The object a handler extracts from the submission and validates. *)
Definition fields_of (h : Handler) (formData : FormData) : JsObject :=
  match h with
  | CreateInvoiceHandler | UpdateInvoiceHandler =>
      [ ("customerId", get formData "customerId");
        ("amount", get formData "amount");
        ("status", get formData "status") ]
  | CreateCustomerHandler | UpdateCustomerHandler =>
      [ ("name", get formData "name");
        ("email", get formData "email");
        ("image", get formData "image") ]
  | CreateUserHandler =>
      [ ("name", get formData "name");
        ("email", get formData "email");
        ("password", get formData "password") ]
  | DeleteInvoiceHandler | DeleteCustomerHandler => []
  end.

(** Whether the handler's validation turns the submission down. *)
Definition rejected (h : Handler) (formData : FormData) : bool :=
  match schema_of h with
  | Some schema =>
      match Zod.safeParse schema (fields_of h formData) with
      | Zod.Success _ => false
      | Zod.Failure _ => true
      end
  | None => false
  end.

Definition operation (h : Handler) : string :=
  match h with
  | CreateInvoiceHandler | CreateCustomerHandler | CreateUserHandler => "Create"
  | UpdateInvoiceHandler | UpdateCustomerHandler => "Update"
  | DeleteInvoiceHandler | DeleteCustomerHandler => "Delete"
  end.

Definition entity (h : Handler) : string :=
  match h with
  | CreateInvoiceHandler | UpdateInvoiceHandler | DeleteInvoiceHandler => "Invoice"
  | CreateCustomerHandler | UpdateCustomerHandler | DeleteCustomerHandler => "Customer"
  | CreateUserHandler => "User"
  end.

Definition missing_fields (h : Handler) : string :=
  "Missing Fields. Failed to " ++ operation h ++ " " ++ entity h ++ ".".

Definition database_error (h : Handler) : string :=
  "Database Error: Failed to " ++ operation h ++ " " ++ entity h ++ ".".

(** ** What a run shows *)

(** The statements a run issued, with their parameters. *)
Definition statements (events : list Event) : list (Statement * list JsValue) :=
  flat_map (fun e =>
              match e with
              | Called (Sql statement values) => [(statement, values)]
              | _ => []
              end) events.

(** The paths a run invalidated. *)
Definition invalidated (events : list Event) : list string :=
  flat_map (fun e =>
              match e with
              | Did (RevalidatePath path) => [path]
              | _ => []
              end) events.

(** The call a suspended function waits for. *)
Definition waits_for (s : Suspended) : External :=
  match s with
  | Suspend call _ => call
  end.

(** The world with another answer from the identity provider. *)
Definition with_signIn (w : World) (answer : Completion JsValue) : World :=
  {| sql := sql w; clock := clock w; bcrypt := bcrypt w;
     signIn := fun _ _ => answer |}.

(** ** The rules of the specification's table (section 4.1)

    Each follows the table's words: [customerId] a non-empty string,
    [amount] coerced to a number and greater than 0, [status] one of
    [pending] and [paid], a customer's [name] a string of length at least
    4, [email] of valid syntax, a user's [password] a string of length at
    least 8. *)

Definition is_string (v : JsValue) : bool :=
  match v with
  | Str _ => true
  | _ => false
  end.

Definition non_empty_string (v : JsValue) : bool :=
  match v with
  | Str s => negb (String.eqb s "")
  | _ => false
  end.

Definition rule_amount (v : JsValue) : bool :=
  PrimFloat.ltb zero (JsNumber.ToNumber v).

Definition rule_status (v : JsValue) : bool :=
  match v with
  | Str s => String.eqb s "pending" || String.eqb s "paid"
  | _ => false
  end.

Definition rule_length (n : nat) (v : JsValue) : bool :=
  match v with
  | Str s => (n <=? String.length s)%nat
  | _ => false
  end.

Definition rule_email (v : JsValue) : bool :=
  match v with
  | Str s => is_email s
  | _ => false
  end.

(** Whether a submission meets every rule of the table that applies to
    the handler, with [rule_customerId] as the rule for [customerId]. *)
Definition rules_hold (rule_customerId : JsValue -> bool) (h : Handler)
  (formData : FormData) : bool :=
  match h with
  | CreateInvoiceHandler | UpdateInvoiceHandler =>
      rule_customerId (get formData "customerId")
      && rule_amount (get formData "amount")
      && rule_status (get formData "status")
  | CreateCustomerHandler | UpdateCustomerHandler =>
      rule_length 4 (get formData "name")
      && rule_email (get formData "email")
  | CreateUserHandler =>
      rule_email (get formData "email")
      && rule_length 8 (get formData "password")
  | DeleteInvoiceHandler | DeleteCustomerHandler => true
  end.

(** Whether the double [x] is, as a rational, exactly [q]. *)
Definition exact_is (x : float) (q : Q) : Prop :=
  match JsNumber.exact_value x with
  | Some p => (p == q)%Q
  | None => False
  end.

(** Whether the product of [a] and 100 came out exact: [x] is, as a
    rational, a hundred times [a]. *)
Definition exactly_times_100 (a x : float) : Prop :=
  match JsNumber.exact_value a with
  | Some q => exact_is x (100 * q)%Q
  | None => False
  end.

(** Whether [c] occurs in [s]. *)
Fixpoint occurs (c : ascii) (s : string) : bool :=
  match s with
  | EmptyString => false
  | String c' rest => Ascii.eqb c' c || occurs c rest
  end.

(** The run of a handler from its [sql] statement on: the statement is
    issued; when it fails the handler returns [{ message: failure }], and
    otherwise it invalidates [path] and redirects there. *)
Definition persisted (w : World) (statement : Statement) (values : list JsValue)
  (failure path : string) : Run State :=
  match sql w statement values with
  | Fulfilled _ =>
      {| trace := [Called (Sql statement values); Did (RevalidatePath path)];
         completion := Rejected (NextRedirect path);
         pending := [] |}
  | Rejected _ =>
      {| trace := [Called (Sql statement values)];
         completion := Fulfilled (only_message failure);
         pending := [] |}
  end.

(** ** More of what a run shows *)

(** The path a handler invalidates and, when it creates or updates,
    redirects to. *)
Definition listing (h : Handler) : string :=
  match h with
  | CreateInvoiceHandler | UpdateInvoiceHandler | DeleteInvoiceHandler =>
      "/dashboard/invoices"
  | CreateCustomerHandler | UpdateCustomerHandler | DeleteCustomerHandler =>
      "/dashboard/customers"
  | CreateUserHandler => "/dashboard"
  end.

Definition is_delete (h : Handler) : bool :=
  match h with
  | DeleteInvoiceHandler | DeleteCustomerHandler => true
  | _ => false
  end.

(** How a handler ends once its statement has succeeded: a delete returns
    its message, the others redirect. *)
Definition success (h : Handler) : Completion State :=
  if is_delete h then Fulfilled (only_message ("Deleted " ++ entity h ++ "."))
  else Rejected (NextRedirect (listing h)).

(** The calls to the identity provider in a run. *)
Definition provider_calls (events : list Event) : list (string * FormData) :=
  flat_map (fun e =>
              match e with
              | Called (SignIn provider formData) => [(provider, formData)]
              | _ => []
              end) events.

(** What a run printed with [console.log]. *)
Definition printed (events : list Event) : list (list JsValue) :=
  flat_map (fun e =>
              match e with
              | Did (ConsoleLog arguments) => [arguments]
              | _ => []
              end) events.

(** The fields of a shape that refuse their property of the input, each
    with the messages of its issues, in the order of the shape. *)
Definition refused_fields (schema : Zod.ZodObject) (input : JsObject)
  : Zod.FieldErrors :=
  flat_map (fun field =>
              match Zod.parse (snd field) (prop input (fst field)) with
              | Zod.Valid _ => []
              | Zod.Invalid messages => [(fst field, messages)]
              end) schema.

(** Whether a schema chains at most one check. *)
Fixpoint one_check (schema : Zod.ZodType) : bool :=
  match schema with
  | Zod.ZString _ checks => (List.length checks <=? 1)%nat
  | Zod.ZCoerceNumber checks => (List.length checks <=? 1)%nat
  | Zod.ZEnum _ _ => true
  | Zod.ZOptional inner => one_check inner
  end.

(** The statement of a handler. *)
Definition statement_of (h : Handler) : Statement :=
  match h with
  | CreateInvoiceHandler => InsertInvoice
  | UpdateInvoiceHandler => UpdateInvoiceById
  | DeleteInvoiceHandler => DeleteInvoiceById
  | CreateCustomerHandler => InsertCustomer
  | UpdateCustomerHandler => UpdateCustomerById
  | DeleteCustomerHandler => DeleteCustomerById
  | CreateUserHandler => InsertUser
  end.

(** The error map of the state a run returned, empty when there is none. *)
Definition reported (r : Run State) : Zod.FieldErrors :=
  match completion r with
  | Fulfilled {| errors := Some error |} => error
  | _ => []
  end.

(** ** Worlds and submissions to run the scenarios on *)

(** A database that takes every statement, a clock at
    2024-02-29T00:00:00.123Z, a stand-in for the salted hash, and a
    provider that refuses the credentials. *)
Definition quiet_world : World :=
  {| sql := fun _ _ => Fulfilled Undefined;
     clock := 1709164800123;
     bcrypt := fun data _ => "$2b$10$" ++ data;
     signIn := fun _ _ => Rejected (AuthError "CredentialsSignin") |}.

(** The same with a database that refuses every statement. *)
Definition failing_world : World :=
  {| sql := fun _ _ => Rejected (OtherError "connection refused");
     clock := clock quiet_world;
     bcrypt := bcrypt quiet_world;
     signIn := signIn quiet_world |}.

Definition no_state : State := {| errors := None; message := None |}.

Definition invoice_submission (customerId amount status : string) : FormData :=
  [ ("customerId", EntryString customerId);
    ("amount", EntryString amount);
    ("status", EntryString status) ].

Definition jane_doe : FormData :=
  [ ("name", EntryString "Jane Doe"); ("email", EntryString "jane@x.com") ].

Definition jane_doe_user : FormData :=
  [ ("name", EntryString "Jane Doe");
    ("email", EntryString "jane@x.com");
    ("password", EntryString "correct horse") ].

(* ================================================================ *)
(** * Properties *)

(** ** Doubles *)

Lemma SFcompare_finite_refl (s : bool) (m : positive) (e : Z) :
  SFcompare (S754_finite s m e) (S754_finite s m e) = Some Eq.
Proof.
  simpl. destruct s; rewrite Z.compare_refl, Pos.compare_cont_refl; reflexivity.
Qed.

(** zod's [.gt(0)] after the [NaN] test is the comparison [0 < x]. *)
Lemma gt_zero_iff (x : float) :
  PrimFloat.ltb zero x = true
  <-> PrimFloat.is_nan x = false /\ PrimFloat.leb x zero = false.
Proof.
  unfold PrimFloat.is_nan.
  rewrite ltb_spec, leb_spec, eqb_spec.
  change (Prim2SF zero) with (S754_zero false).
  destruct (Prim2SF x) as [s | s | | s m e]; unfold SFltb, SFleb, SFeqb.
  - simpl. intuition congruence.
  - destruct s; simpl; intuition congruence.
  - simpl. intuition congruence.
  - rewrite SFcompare_finite_refl. destruct s; simpl; intuition congruence.
Qed.

(** ** zod *)

Lemma parse_invalid_nonempty (schema : Zod.ZodType) (v : JsValue)
  (messages : list string) :
  Zod.parse schema v = Zod.Invalid messages -> messages <> [].
Proof.
  revert v messages.
  induction schema as [custom checks | checks | values custom | inner IH];
    intros v messages; simpl.
  - destruct v; try (intros [= <-]; discriminate).
    destruct (flat_map (Zod.string_check s) checks); intros [= <-]; discriminate.
  - destruct (PrimFloat.is_nan (JsNumber.ToNumber v)).
    + intros [= <-]; discriminate.
    + destruct (flat_map (Zod.number_check (JsNumber.ToNumber v)) checks);
        intros [= <-]; discriminate.
  - destruct v; try (intros [= <-]; discriminate).
    destruct (existsb (String.eqb s) values); intros [= <-]; discriminate.
  - destruct v; try apply IH. discriminate.
Qed.

(** [safeParse] succeeds exactly when every key of the shape takes its
    property, and then yields the parsed values under the shape's keys. *)
Lemma parse_object_verdict (schema : Zod.ZodObject) (input : JsObject) :
  if forallb (fun field => Zod.accepts (snd field) (prop input (fst field))) schema
  then Zod.parse_object schema input
       = (map (fun field => (fst field, Zod.parsed (snd field) (prop input (fst field))))
            schema, [])
  else snd (Zod.parse_object schema input) <> [].
Proof.
  induction schema as [| [key type] rest IH]; simpl; [reflexivity |].
  unfold Zod.accepts, Zod.parsed.
  destruct (Zod.parse_object rest input) as [data issues].
  destruct (Zod.parse type (prop input key)) as [value | messages] eqn:P; simpl.
  - destruct (forallb _ rest).
    + injection IH as -> ->. reflexivity.
    + exact IH.
  - apply parse_invalid_nonempty in P.
    destruct messages; [contradiction | discriminate].
Qed.

Lemma safeParse_accepted (schema : Zod.ZodObject) (input : JsObject) :
  forallb (fun field => Zod.accepts (snd field) (prop input (fst field))) schema = true ->
  Zod.safeParse schema input
  = Zod.Success
      (map (fun field => (fst field, Zod.parsed (snd field) (prop input (fst field))))
         schema).
Proof.
  intros H. pose proof (parse_object_verdict schema input) as V.
  rewrite H in V. unfold Zod.safeParse. rewrite V. reflexivity.
Qed.

Lemma safeParse_refused (schema : Zod.ZodObject) (input : JsObject) :
  forallb (fun field => Zod.accepts (snd field) (prop input (fst field))) schema = false ->
  exists error, Zod.safeParse schema input = Zod.Failure error.
Proof.
  intros H. pose proof (parse_object_verdict schema input) as V.
  rewrite H in V. unfold Zod.safeParse.
  destruct (Zod.parse_object schema input) as [data [| issue issues]];
    [contradiction | eauto].
Qed.

Arguments JsNumber.ToNumber : simpl never.
Arguments JsDate.toISOString : simpl never.
Arguments JsDate.date_string : simpl never.
Arguments PrimFloat.is_nan : simpl never.

Lemma accepts_string (custom : option string) (v : JsValue) :
  Zod.accepts (Zod.ZString custom []) v = is_string v.
Proof. destruct v; reflexivity. Qed.

Lemma accepts_amount (text : string) (v : JsValue) :
  Zod.accepts (Zod.ZCoerceNumber [Zod.Gt zero text]) v = rule_amount v.
Proof.
  unfold Zod.accepts, rule_amount. simpl.
  pose proof (gt_zero_iff (JsNumber.ToNumber v)) as G.
  destruct (PrimFloat.is_nan (JsNumber.ToNumber v)).
  - destruct (PrimFloat.ltb zero (JsNumber.ToNumber v)); [| reflexivity].
    destruct G as [G _]. destruct (G eq_refl). discriminate.
  - destruct (PrimFloat.leb (JsNumber.ToNumber v) zero); simpl.
    + destruct (PrimFloat.ltb zero (JsNumber.ToNumber v)); [| reflexivity].
      destruct G as [G _]. destruct (G eq_refl). discriminate.
    + symmetry. apply G. split; reflexivity.
Qed.

Lemma accepts_status (custom : option string) (v : JsValue) :
  Zod.accepts (Zod.ZEnum ["pending"; "paid"] custom) v = rule_status v.
Proof.
  destruct v; try reflexivity.
  unfold Zod.accepts, rule_status. simpl. rewrite orb_false_r.
  destruct (String.eqb s "pending" || String.eqb s "paid"); reflexivity.
Qed.

Lemma accepts_min (n : nat) (text : option string) (v : JsValue) :
  Zod.accepts (Zod.ZString None [Zod.Min n text]) v = rule_length n v.
Proof.
  destruct v; try reflexivity.
  unfold Zod.accepts, rule_length. simpl.
  rewrite Nat.ltb_antisym. destruct (n <=? String.length s)%nat; reflexivity.
Qed.

Lemma accepts_email (text : option string) (v : JsValue) :
  Zod.accepts (Zod.ZString None [Zod.Email is_email text]) v = rule_email v.
Proof.
  destruct v; try reflexivity.
  unfold Zod.accepts, rule_email. simpl. destruct (is_email s); reflexivity.
Qed.

(** What [z.string()] with any checks, and [z.enum], take, they yield
    unchanged. *)
Lemma parsed_string (custom : option string) (checks : list Zod.StringCheck)
  (v : JsValue) :
  Zod.accepts (Zod.ZString custom checks) v = true ->
  Zod.parsed (Zod.ZString custom checks) v = v.
Proof.
  unfold Zod.accepts, Zod.parsed. destruct v; simpl; try discriminate.
  destruct (flat_map (Zod.string_check s) checks); [reflexivity | discriminate].
Qed.

Lemma parsed_enum (values : list string) (custom : option string) (v : JsValue) :
  Zod.accepts (Zod.ZEnum values custom) v = true ->
  Zod.parsed (Zod.ZEnum values custom) v = v.
Proof.
  unfold Zod.accepts, Zod.parsed. destruct v; simpl; try discriminate.
  destruct (existsb (String.eqb s) values); [reflexivity | discriminate].
Qed.

Lemma parsed_number (checks : list Zod.NumberCheck) (v : JsValue) :
  Zod.accepts (Zod.ZCoerceNumber checks) v = true ->
  Zod.parsed (Zod.ZCoerceNumber checks) v = Num (JsNumber.ToNumber v).
Proof.
  unfold Zod.accepts, Zod.parsed. simpl.
  destruct (PrimFloat.is_nan (JsNumber.ToNumber v)); [discriminate |].
  destruct (flat_map (Zod.number_check (JsNumber.ToNumber v)) checks);
    [reflexivity | discriminate].
Qed.

(** [.optional()] lets [undefined] through, and nothing else that the
    inner schema refuses: [null] is not [undefined]. *)
Lemma accepts_optional_string (v : JsValue) :
  Zod.accepts (Zod.ZOptional (Zod.ZString None [])) v
  = match v with
    | Undefined | Str _ => true
    | _ => false
    end.
Proof. destruct v; reflexivity. Qed.

(** ** Dates *)

Lemma occurs_app (c : ascii) (s1 s2 : string) :
  occurs c (s1 ++ s2) = occurs c s1 || occurs c s2.
Proof.
  induction s1 as [| c1 s1 IH]; simpl; [reflexivity |].
  rewrite IH. apply orb_assoc.
Qed.

Lemma digit_is_not_T (d : Z) : Ascii.eqb (JsDate.digit d) "T" = false.
Proof.
  unfold JsDate.digit.
  assert (Z.to_nat (d mod 10) < 10)%nat as B
    by (pose proof (Z.mod_pos_bound d 10); lia).
  destruct (Z.to_nat (d mod 10)) as [| k]; [reflexivity |].
  do 9 (destruct k as [| k]; [reflexivity |]). lia.
Qed.

Lemma pad_has_no_T (width : nat) (n : Z) : occurs "T" (JsDate.pad width n) = false.
Proof.
  revert n. induction width as [| width IH]; intros n; [reflexivity |].
  cbn [JsDate.pad]. rewrite occurs_app, IH.
  cbn [occurs orb]. rewrite digit_is_not_T. reflexivity.
Qed.

Lemma date_string_has_no_T (t : Z) : occurs "T" (JsDate.date_string t) = false.
Proof.
  unfold JsDate.date_string.
  destruct (JsDate.civil (JsDate.Day t)) as [[y m] d].
  rewrite !occurs_app, !pad_has_no_T. unfold JsDate.year_string.
  destruct ((0 <=? y) && (y <=? 9999)).
  - rewrite pad_has_no_T. reflexivity.
  - rewrite occurs_app, pad_has_no_T. destruct (y <? 0); reflexivity.
Qed.

Lemma first_split (sep : ascii) (s rest : string) :
  occurs sep s = false ->
  JsString.first (JsString.split sep (s ++ String sep rest)) = s.
Proof.
  induction s as [| c s IH]; simpl.
  - intros _. rewrite Ascii.eqb_refl. reflexivity.
  - intros H. apply orb_false_iff in H as [Hc Hs].
    rewrite Hc. specialize (IH Hs). unfold JsString.first in *.
    destruct (JsString.split sep (s ++ String sep rest)); simpl in *;
      rewrite IH; reflexivity.
Qed.

(** [new Date(t).toISOString().split('T')[0]] is the calendar date. *)
Lemma date_of_toISOString (t : Z) :
  JsString.first (JsString.split "T" (JsDate.toISOString t)) = JsDate.date_string t.
Proof.
  unfold JsDate.toISOString. apply first_split, date_string_has_no_T.
Qed.

(** ** The handlers, run *)

Arguments Zod.accepts : simpl never.
Arguments Zod.parsed : simpl never.

Lemma after_sql (w : World) (statement : Statement) (values : list JsValue)
  (failure path : string) :
  exec w (returned <- try_sql statement values failure ;;
          match returned with
          | Some result => Return result
          | None => revalidatePath path ;;; redirect path
          end)
  = persisted w statement values failure path.
Proof.
  unfold persisted. simpl. destruct (sql w statement values); reflexivity.
Qed.

(** A submission the validation turns down: the handler returns the error
    map and the message, and nothing else happens. *)
Lemma rejected_run (h : Handler) (id : string) (prevState : State)
  (formData : FormData) (w : World) :
  rejected h formData = true ->
  exists schema error,
    schema_of h = Some schema
    /\ Zod.safeParse schema (fields_of h formData) = Zod.Failure error
    /\ exec w (call h id prevState formData)
       = {| trace := [];
            completion :=
              Fulfilled {| errors := Some (Zod.fieldErrors error);
                           message := Some (missing_fields h) |};
            pending := [] |}.
Proof.
  unfold rejected.
  destruct h; cbn [schema_of fields_of call]; try discriminate;
    [ unfold createInvoice | unfold updateInvoice | unfold createCustomer
    | unfold updateCustomer | unfold createUser ];
    match goal with
    | |- context [Zod.safeParse ?schema ?input] =>
        destruct (Zod.safeParse schema input) as [data | error] eqn:E
    end;
    try discriminate; intros _; eexists; exists error;
    (split; [reflexivity | split; [exact E | reflexivity]]).
Qed.

Lemma rejected_forallb (h : Handler) (schema : Zod.ZodObject) (formData : FormData) :
  schema_of h = Some schema ->
  rejected h formData
  = negb (forallb (fun field =>
                     Zod.accepts (snd field)
                       (prop (fields_of h formData) (fst field)))
            schema).
Proof.
  intros S. unfold rejected. rewrite S.
  destruct (forallb _ schema) eqn:F.
  - rewrite (safeParse_accepted _ _ F). reflexivity.
  - destruct (safeParse_refused _ _ F) as [error ->]. reflexivity.
Qed.

Lemma invoice_accepted (formData : FormData) :
  forallb (fun field =>
             Zod.accepts (snd field)
               (prop (fields_of CreateInvoiceHandler formData) (fst field)))
    CreateInvoice
  = rules_hold is_string CreateInvoiceHandler formData.
Proof.
  simpl. rewrite accepts_string, accepts_amount, accepts_status, andb_true_r.
  apply andb_assoc.
Qed.

Lemma invoice_data (formData : FormData) :
  rules_hold is_string CreateInvoiceHandler formData = true ->
  Zod.safeParse CreateInvoice
    [ ("customerId", get formData "customerId");
      ("amount", get formData "amount");
      ("status", get formData "status") ]
  = Zod.Success
      [ ("customerId", get formData "customerId");
        ("amount", Num (JsNumber.ToNumber (get formData "amount")));
        ("status", get formData "status") ].
Proof.
  intros H.
  rewrite safeParse_accepted by (exact (eq_trans (invoice_accepted formData) H)).
  simpl in H. apply andb_true_iff in H as [H Hs]. apply andb_true_iff in H as [Hc Ha].
  simpl.
  rewrite parsed_string by (rewrite accepts_string; exact Hc).
  rewrite parsed_number by (rewrite accepts_amount; exact Ha).
  rewrite parsed_enum by (rewrite accepts_status; exact Hs).
  reflexivity.
Qed.

Lemma createInvoice_run (prevState : State) (formData : FormData) (w : World) :
  rules_hold is_string CreateInvoiceHandler formData = true ->
  exec w (createInvoice prevState formData)
  = persisted w InsertInvoice
      [ get formData "customerId";
        Num (JsNumber.ToNumber (get formData "amount") * 100)%float;
        get formData "status";
        Str (JsDate.date_string (clock w)) ]
      "Database Error: Failed to Create Invoice." "/dashboard/invoices".
Proof.
  intros H. unfold createInvoice.
  rewrite (invoice_data formData H).
  cbn [prop String.eqb Ascii.eqb Bool.eqb exec JsNumber.mul].
  rewrite date_of_toISOString. apply after_sql.
Qed.

Lemma updateInvoice_run (id : string) (prevState : State) (formData : FormData)
  (w : World) :
  rules_hold is_string UpdateInvoiceHandler formData = true ->
  exec w (updateInvoice id prevState formData)
  = persisted w UpdateInvoiceById
      [ get formData "customerId";
        Num (JsNumber.ToNumber (get formData "amount") * 100)%float;
        get formData "status";
        Str id ]
      "Database Error: Failed to Update Invoice." "/dashboard/invoices".
Proof.
  intros H. unfold updateInvoice.
  change UpdateInvoice with CreateInvoice.
  rewrite (invoice_data formData H).
  cbn [prop String.eqb Ascii.eqb Bool.eqb JsNumber.mul].
  apply after_sql.
Qed.

Lemma customer_accepted (formData : FormData) :
  forallb (fun field =>
             Zod.accepts (snd field)
               (prop (fields_of CreateCustomerHandler formData) (fst field)))
    CreateCustomer
  = rule_length 4 (get formData "name")
    && rule_email (get formData "email")
    && is_string (get formData "image").
Proof.
  simpl. rewrite accepts_min, accepts_email, accepts_optional_string, andb_true_r.
  rewrite andb_assoc. f_equal.
  destruct (get formData "image") eqn:E; try reflexivity.
  exfalso. clear - E. induction formData as [| [k e] rest IH]; simpl in E.
  - discriminate.
  - destruct (String.eqb k "image"); [destruct e; discriminate | auto].
Qed.

Lemma createCustomer_run (prevState : State) (formData : FormData) (w : World) :
  rule_length 4 (get formData "name") = true ->
  rule_email (get formData "email") = true ->
  is_string (get formData "image") = true ->
  exec w (createCustomer prevState formData)
  = persisted w InsertCustomer
      [ get formData "name"; get formData "email"; get formData "image" ]
      "Database Error: Failed to Create Customer." "/dashboard/customers".
Proof.
  intros Hn He Hi. unfold createCustomer.
  change [ ("name", get formData "name"); ("email", get formData "email");
           ("image", get formData "image") ]
    with (fields_of CreateCustomerHandler formData).
  rewrite safeParse_accepted
    by (rewrite customer_accepted, Hn, He, Hi; reflexivity).
  simpl.
  rewrite !parsed_string by (first [ rewrite accepts_min; assumption
                                   | rewrite accepts_email; assumption ]).
  destruct (get formData "image"); try discriminate.
  apply after_sql.
Qed.

(** [updateCustomer] validates with the full schema, whose [id] the
    object it builds never has. *)
Lemma updateCustomer_rejected (formData : FormData) :
  rejected UpdateCustomerHandler formData = true.
Proof.
  unfold rejected. cbn [schema_of].
  destruct (safeParse_refused CustomerFormSchema
              (fields_of UpdateCustomerHandler formData)) as [error ->];
    reflexivity.
Qed.

Lemma user_accepted (formData : FormData) :
  forallb (fun field =>
             Zod.accepts (snd field)
               (prop (fields_of CreateUserHandler formData) (fst field)))
    CreateUser
  = is_string (get formData "name")
    && rule_email (get formData "email")
    && rule_length 8 (get formData "password").
Proof.
  simpl. rewrite accepts_string, accepts_email, accepts_min, andb_true_r.
  apply andb_assoc.
Qed.

(** A run of [createUser] on a submission that passes validation: the
    hash, the debug print, the INSERT, and, when the INSERT succeeds, the
    call to [authenticate], whose promise is dropped. *)
Lemma createUser_run (prevState : State) (formData : FormData) (w : World)
  (name email password : string) :
  get formData "name" = Str name ->
  get formData "email" = Str email ->
  is_email email = true ->
  get formData "password" = Str password ->
  (8 <= String.length password)%nat ->
  let hashed := Str (bcrypt w password 10) in
  let insert := Sql InsertUser [Str email; hashed; Str name] in
  exec w (createUser prevState formData)
  = match sql w InsertUser [Str email; hashed; Str name] with
    | Fulfilled _ =>
        {| trace := [ Called (BcryptHash (Str password) 10);
                      Did (ConsoleLog [Str email; hashed]);
                      Called insert;
                      Called (SignIn "credentials" formData);
                      Did (RevalidatePath "/dashboard") ];
           completion := Rejected (NextRedirect "/dashboard");
           pending := snd (start w (authenticate None formData)) |}
    | Rejected _ =>
        {| trace := [ Called (BcryptHash (Str password) 10);
                      Did (ConsoleLog [Str email; hashed]);
                      Called insert ];
           completion := Fulfilled (only_message "Database Error: Failed to Create User.");
           pending := [] |}
    end.
Proof.
  intros Hn He Hm Hp Hl hashed insert. subst hashed insert. unfold createUser.
  change [ ("name", get formData "name"); ("email", get formData "email");
           ("password", get formData "password") ]
    with (fields_of CreateUserHandler formData).
  assert (rule_length 8 (get formData "password") = true) as Rp
    by (rewrite Hp; apply Nat.leb_le; exact Hl).
  assert (rule_email (get formData "email") = true) as Re
    by (rewrite He; exact Hm).
  rewrite safeParse_accepted
    by (rewrite user_accepted, Hn, Re, Rp; reflexivity).
  simpl.
  rewrite !parsed_string
    by first [ rewrite accepts_string, Hn; reflexivity
             | rewrite accepts_email; assumption
             | rewrite accepts_min; assumption ].
  rewrite Hn, He, Hp. simpl.
  destruct (sql w InsertUser [Str email; Str (bcrypt w password 10); Str name]);
    reflexivity.
Qed.

(** ** The error map *)

Lemma issues_under_keys (schema : Zod.ZodObject) (input : JsObject) :
  Forall (fun issue => In (Zod.path issue) (Zod.keys schema))
    (snd (Zod.parse_object schema input)).
Proof.
  induction schema as [| [key type] rest IH]; simpl; [constructor |].
  destruct (Zod.parse_object rest input) as [data issues]. simpl in IH.
  assert (Forall (fun issue => In (Zod.path issue) (key :: Zod.keys rest)) issues) as R
    by (eapply Forall_impl; [| exact IH]; simpl; auto).
  destruct (Zod.parse type (prop input key)) as [value | messages]; simpl;
    [exact R |].
  apply Forall_app. split; [| exact R].
  apply Forall_forall. intros issue I. apply in_map_iff in I as [m [<- _]].
  simpl. auto.
Qed.

Lemma fieldErrors_head (issues : list Zod.ZodIssue) (key : string)
  (messages : list string) (errors : Zod.FieldErrors) :
  Forall (fun issue => Zod.path issue <> key) issues ->
  fold_left (fun errors issue => Zod.push errors (Zod.path issue) (Zod.message issue))
    issues ((key, messages) :: errors)
  = (key, messages)
      :: fold_left (fun errors issue => Zod.push errors (Zod.path issue) (Zod.message issue))
           issues errors.
Proof.
  revert errors. induction issues as [| issue issues IH]; intros errors F;
    [reflexivity |].
  inversion F as [| ? ? Hd Tl]; subst. simpl.
  destruct (String.eqb_spec key (Zod.path issue)) as [E | _];
    [symmetry in E; contradiction |].
  apply IH, Tl.
Qed.

Lemma push_keys (errors : Zod.FieldErrors) (key text k : string) :
  In k (map fst (Zod.push errors key text)) -> k = key \/ In k (map fst errors).
Proof.
  induction errors as [| [k' messages] rest IH]; simpl.
  - intros [<- | []]. auto.
  - destruct (String.eqb k' key); simpl; intros [<- | I]; auto.
    destruct (IH I); auto.
Qed.

Lemma fieldErrors_keys (issues : list Zod.ZodIssue) (k : string) :
  In k (map fst (Zod.fieldErrors issues)) -> In k (map Zod.path issues).
Proof.
  unfold Zod.fieldErrors.
  assert (forall errors,
             In k (map fst (fold_left
                              (fun errors issue =>
                                 Zod.push errors (Zod.path issue) (Zod.message issue))
                              issues errors)) ->
             In k (map Zod.path issues) \/ In k (map fst errors)) as G.
  { induction issues as [| issue issues IH]; intros errors; simpl; [auto |].
    intros I. destruct (IH _ I) as [I' | I']; [auto |].
    destruct (push_keys _ _ _ _ I') as [-> | I'']; auto. }
  intros I. destruct (G [] I) as [I' | []]. exact I'.
Qed.

Lemma push_fresh (errors : Zod.FieldErrors) (key text : string) :
  ~ In key (map fst errors) ->
  Zod.push errors key text = (errors ++ [(key, [text])])%list.
Proof.
  induction errors as [| [k messages] rest IH]; simpl; intros N; [reflexivity |].
  destruct (String.eqb_spec k key) as [E | _]; [tauto |].
  rewrite IH by tauto. reflexivity.
Qed.

(** The last issue, under a key no earlier issue has, closes the map. *)
Lemma fieldErrors_last (issues : list Zod.ZodIssue) (key text : string) :
  ~ In key (map Zod.path issues) ->
  Zod.fieldErrors (issues ++ [{| Zod.path := key; Zod.message := text |}])
  = (Zod.fieldErrors issues ++ [(key, [text])])%list.
Proof.
  intros N. unfold Zod.fieldErrors at 1. rewrite fold_left_app. simpl.
  apply push_fresh. intros I. apply N, fieldErrors_keys, I.
Qed.

Lemma safeParse_issues (schema : Zod.ZodObject) (input : JsObject) :
  Zod.safeParse schema input
  = match snd (Zod.parse_object schema input) with
    | [] => Zod.Success (fst (Zod.parse_object schema input))
    | issues => Zod.Failure issues
    end.
Proof.
  unfold Zod.safeParse. destruct (Zod.parse_object schema input) as [data [| ]];
    reflexivity.
Qed.

Lemma issues_cons (key : string) (type : Zod.ZodType) (rest : Zod.ZodObject)
  (input : JsObject) :
  snd (Zod.parse_object ((key, type) :: rest) input)
  = (match Zod.parse type (prop input key) with
     | Zod.Valid _ => []
     | Zod.Invalid messages =>
         map (fun m => {| Zod.path := key; Zod.message := m |}) messages
     end ++ snd (Zod.parse_object rest input))%list.
Proof.
  simpl. destruct (Zod.parse_object rest input) as [data issues].
  destruct (Zod.parse type (prop input key)); reflexivity.
Qed.

Lemma issues_app (schema1 schema2 : Zod.ZodObject) (input : JsObject) :
  snd (Zod.parse_object (schema1 ++ schema2)%list input)
  = (snd (Zod.parse_object schema1 input) ++ snd (Zod.parse_object schema2 input))%list.
Proof.
  induction schema1 as [| [key type] rest IH]; [reflexivity |].
  change (((key, type) :: rest) ++ schema2)%list
    with ((key, type) :: (rest ++ schema2))%list.
  rewrite !issues_cons, IH. apply app_assoc.
Qed.

(** ** Verdicts *)

Lemma invoice_rejected (formData : FormData) :
  rejected CreateInvoiceHandler formData
  = negb (rules_hold is_string CreateInvoiceHandler formData).
Proof.
  rewrite (rejected_forallb CreateInvoiceHandler CreateInvoice) by reflexivity.
  rewrite invoice_accepted. reflexivity.
Qed.

(** A submission that breaks a rule its handler enforces is turned down. *)
Lemma broken_rule_rejected (h : Handler) (formData : FormData) :
  rules_hold is_string h formData = false -> rejected h formData = true.
Proof.
  destruct h; try discriminate; intros R.
  - rewrite invoice_rejected, R. reflexivity.
  - change (rejected UpdateInvoiceHandler formData)
      with (rejected CreateInvoiceHandler formData).
    rewrite invoice_rejected.
    change (rules_hold is_string CreateInvoiceHandler formData)
      with (rules_hold is_string UpdateInvoiceHandler formData).
    rewrite R. reflexivity.
  - rewrite (rejected_forallb CreateCustomerHandler CreateCustomer) by reflexivity.
    rewrite customer_accepted. cbn [rules_hold] in R. rewrite R. reflexivity.
  - apply updateCustomer_rejected.
  - rewrite (rejected_forallb CreateUserHandler CreateUser) by reflexivity.
    rewrite user_accepted. cbn [rules_hold] in R.
    rewrite <- andb_assoc, R, andb_false_r. reflexivity.
Qed.

Lemma persisted_statements (w : World) (statement : Statement)
  (values : list JsValue) (failure path : string) :
  statements (trace (persisted w statement values failure path))
  = [(statement, values)].
Proof. unfold persisted. destruct (sql w statement values); reflexivity. Qed.

(** What [persisted] yields when the database refuses the statement. *)
Lemma persisted_failure (w : World) (statement : Statement)
  (values : list JsValue) (failure path : string)
  (statement' : Statement) (values' : list JsValue) (reason : JsError) :
  In (statement', values')
     (statements (trace (persisted w statement values failure path))) ->
  sql w statement' values' = Rejected reason ->
  persisted w statement values failure path
  = {| trace := [Called (Sql statement values)];
       completion := Fulfilled (only_message failure);
       pending := [] |}.
Proof.
  rewrite persisted_statements. intros [[= <- <-] | []] Q.
  unfold persisted. rewrite Q. reflexivity.
Qed.

(* ================================================================ *)
(** * The claims *)

(** C1 (the code departs from it): the schema a handler validates with is
    to hold neither [id] nor [date], so that no update is turned down for
    lacking an [id].  That is so for every handler but [updateCustomer],
    which validates with the full [CustomerFormSchema], [id] included,
    against an object that never has it: every call, whatever the
    submission, returns the error map with ["Required"] under [id] and
    issues no statement. *)
Theorem updateCustomer_requires_id (id : string) (prevState : State)
  (formData : FormData) (w : World) :
  (forall h schema,
      schema_of h = Some schema ->
      h <> UpdateCustomerHandler ->
      ~ In "id" (Zod.keys schema) /\ ~ In "date" (Zod.keys schema))
  /\ In "id" (Zod.keys CustomerFormSchema)
  /\ exists others,
       exec w (updateCustomer id prevState formData)
       = {| trace := [];
            completion :=
              Fulfilled {| errors := Some (("id", ["Required"]) :: others);
                           message := Some "Missing Fields. Failed to Update Customer." |};
            pending := [] |}.
Proof.
  split; [| split; [simpl; auto |]].
  { intros h schema S N.
    destruct h; try discriminate; try contradiction; injection S as <-;
      split; simpl; intuition discriminate. }
  unfold updateCustomer. rewrite safeParse_issues.
  unfold CustomerFormSchema at 1. rewrite issues_cons.
  set (input := [ ("name", get formData "name"); _; _ ]).
  set (rest := [ ("name", Zod.ZString _ _); _; _ ]).
  pose proof (issues_under_keys rest input) as P.
  change (Zod.parse (Zod.ZString None []) (prop input "id"))
    with (Zod.Invalid ["Required"]).
  cbn [map app]. cbn [exec]. unfold invalid, Zod.fieldErrors. cbn [fold_left].
  cbn [Zod.push Zod.path Zod.message].
  rewrite fieldErrors_head.
  - eexists. reflexivity.
  - eapply Forall_impl; [| exact P]. intros issue I E. cbv beta in I. rewrite E in I.
    simpl in I. intuition discriminate.
Qed.

(** C2 (the code departs from it): a customer is to be created from a
    name and an email alone.  With no [image] entry [formData.get]
    yields [null], which [z.string().optional()] refuses ([.optional()]
    admits [undefined] only): whatever the name and the email, the
    handler returns the error map, closed by ["Expected string, received
    null"] under [image], and issues no statement. *)
Theorem createCustomer_without_image (prevState : State) (formData : FormData)
  (w : World) :
  get formData "image" = Null ->
  exists others,
    exec w (createCustomer prevState formData)
    = {| trace := [];
         completion :=
           Fulfilled
             {| errors := Some (others ++ [("image", ["Expected string, received null"])])%list;
                message := Some "Missing Fields. Failed to Create Customer." |};
         pending := [] |}.
Proof.
  intros E. unfold createCustomer. rewrite safeParse_issues.
  set (input := [ ("name", get formData "name"); _; _ ]).
  change CreateCustomer
    with ([ ("name", Zod.ZString None [Zod.Min 4 (Some "Please enter your full name.")]);
            ("email", Zod.ZString None
                        [Zod.Email is_email (Some "Please enter a valid email address.")]) ]
          ++ [ ("image", Zod.ZOptional (Zod.ZString None [])) ])%list.
  set (first_two := [ ("name", Zod.ZString _ _); _ ]).
  rewrite issues_app.
  pose proof (issues_under_keys first_two input) as P.
  rewrite (issues_cons "image").
  change (prop input "image") with (get formData "image"). rewrite E.
  change (Zod.parse (Zod.ZOptional (Zod.ZString None [])) Null)
    with (Zod.Invalid ["Expected string, received null"]).
  cbn [map Zod.parse_object snd app].
  destruct (snd (Zod.parse_object first_two input)
            ++ [{| Zod.path := "image"; Zod.message := "Expected string, received null" |}])%list
    as [| issue issues] eqn:I.
  - apply app_eq_nil in I as [_ I]. discriminate.
  - rewrite <- I. cbn [exec]. unfold invalid. rewrite fieldErrors_last.
    + eexists. reflexivity.
    + intros N. apply in_map_iff in N as [issue' [N1 N2]].
      rewrite Forall_forall in P. apply P in N2. rewrite N1 in N2.
      simpl in N2. intuition discriminate.
Qed.


(** C3 (as amended): for every invoice creation or update whose
    submission passes validation, the amount bound into the statement is
    the IEEE-754 double product of the coerced amount and 100: the
    product rounded to the nearest double, which for 12.50 is 1250. *)
Theorem invoice_amount_is_the_double_product (id : string) (prevState : State)
  (formData : FormData) (w : World) :
  rejected CreateInvoiceHandler formData = false ->
  statements (trace (exec w (createInvoice prevState formData)))
  = [ (InsertInvoice,
       [ get formData "customerId";
         Num (JsNumber.ToNumber (get formData "amount") * 100)%float;
         get formData "status";
         Str (JsDate.date_string (clock w)) ]) ]
  /\ statements (trace (exec w (updateInvoice id prevState formData)))
     = [ (UpdateInvoiceById,
          [ get formData "customerId";
            Num (JsNumber.ToNumber (get formData "amount") * 100)%float;
            get formData "status";
            Str id ]) ].
Proof.
  rewrite invoice_rejected. intros R. apply negb_false_iff in R.
  rewrite (createInvoice_run _ _ _ R), (updateInvoice_run _ _ _ _ R).
  rewrite !persisted_statements. split; reflexivity.
Qed.

(** C4 (as amended): for every create or update handler and every
    submission that breaks a rule the handler enforces (those of the
    table, [customerId] having to be a string, the empty one included),
    the handler returns the per-field error map of the failed validation
    with the message "Missing Fields. Failed to <Create|Update>
    <Entity>.", and issues no statement, no invalidation and no
    redirect. *)
Theorem broken_rule_returns_errors (h : Handler) (id : string) (prevState : State)
  (formData : FormData) (w : World) :
  rules_hold is_string h formData = false ->
  exists schema error,
    schema_of h = Some schema
    /\ Zod.safeParse schema (fields_of h formData) = Zod.Failure error
    /\ exec w (call h id prevState formData)
       = {| trace := [];
            completion :=
              Fulfilled {| errors := Some (Zod.fieldErrors error);
                           message := Some (missing_fields h) |};
            pending := [] |}.
Proof.
  intros R. apply rejected_run, broken_rule_rejected, R.
Qed.

(** C5: for every handler, when the database refuses the statement the
    handler issues, the handler returns exactly [{ message: "Database
    Error: Failed to <Create|Update|Delete> <Entity>." }], without
    [errors]; the failure is not passed on, and nothing is invalidated. *)
Theorem persistence_failure_is_reported (h : Handler) (id : string)
  (prevState : State) (formData : FormData) (w : World)
  (statement : Statement) (values : list JsValue) (reason : JsError) :
  In (statement, values)
     (statements (trace (exec w (call h id prevState formData)))) ->
  sql w statement values = Rejected reason ->
  completion (exec w (call h id prevState formData))
  = Fulfilled {| errors := None; message := Some (database_error h) |}
  /\ invalidated (trace (exec w (call h id prevState formData))) = [].
Proof.
  destruct (rejected h formData) eqn:V.
  { destruct (rejected_run h id prevState formData w V) as (? & ? & _ & _ & ->).
    intros []. }
  destruct h; cbn [call].
  - rewrite invoice_rejected in V. apply negb_false_iff in V.
    rewrite (createInvoice_run _ _ _ V). intros I Q.
    rewrite (persisted_failure _ _ _ _ _ _ _ _ I Q). split; reflexivity.
  - change (rejected UpdateInvoiceHandler formData)
      with (rejected CreateInvoiceHandler formData) in V.
    rewrite invoice_rejected in V. apply negb_false_iff in V.
    rewrite (updateInvoice_run _ _ _ _ V). intros I Q.
    rewrite (persisted_failure _ _ _ _ _ _ _ _ I Q). split; reflexivity.
  - unfold deleteInvoice. simpl.
    destruct (sql w DeleteInvoiceById [Str id]) eqn:Q; simpl.
    + intros [[= <- <-] | []] Q'. congruence.
    + split; reflexivity.
  - rewrite (rejected_forallb CreateCustomerHandler CreateCustomer) in V by reflexivity.
    apply negb_false_iff in V. rewrite customer_accepted in V.
    apply andb_true_iff in V as [V Hi]. apply andb_true_iff in V as [Hn He].
    rewrite (createCustomer_run _ _ _ Hn He Hi). intros I Q.
    rewrite (persisted_failure _ _ _ _ _ _ _ _ I Q). split; reflexivity.
  - rewrite updateCustomer_rejected in V. discriminate.
  - unfold deleteCustomer. simpl.
    destruct (sql w DeleteCustomerById [Str id]) eqn:Q; simpl.
    + intros [[= <- <-] | []] Q'. congruence.
    + split; reflexivity.
  - rewrite (rejected_forallb CreateUserHandler CreateUser) in V by reflexivity.
    apply negb_false_iff in V. rewrite user_accepted in V.
    apply andb_true_iff in V as [V Hp]. apply andb_true_iff in V as [Hn He].
    destruct (get formData "name") as [| | name | |] eqn:En; try discriminate.
    destruct (get formData "email") as [| | email | |] eqn:Ee; try discriminate.
    destruct (get formData "password") as [| | password | |] eqn:Ep; try discriminate.
    apply Nat.leb_le in Hp.
    rewrite (createUser_run _ _ _ name email password En Ee He Ep Hp).
    destruct (sql w InsertUser [Str email; Str (bcrypt w password 10); Str name]) eqn:Q;
      simpl.
    + intros [[= <- <-] | []] Q'. congruence.
    + split; reflexivity.
Qed.

(** C6: when the provider call raises an authentication error of kind
    [CredentialsSignin], [authenticate] returns "Invalid credentials.";
    when it raises one of any other kind, "Something went wrong."; and
    any other error is raised again, unchanged. *)
Theorem authenticate_translates_failures (prevState : option string)
  (formData : FormData) (w : World) :
  (signIn w "credentials" formData = Rejected (AuthError "CredentialsSignin") ->
   completion (exec w (authenticate prevState formData))
   = Fulfilled (Str "Invalid credentials."))
  /\ (forall type,
         type <> "CredentialsSignin" ->
         signIn w "credentials" formData = Rejected (AuthError type) ->
         completion (exec w (authenticate prevState formData))
         = Fulfilled (Str "Something went wrong."))
  /\ (forall reason,
         (forall type, reason <> AuthError type) ->
         signIn w "credentials" formData = Rejected reason ->
         completion (exec w (authenticate prevState formData)) = Rejected reason).
Proof.
  unfold authenticate. simpl. repeat split.
  - intros ->. reflexivity.
  - intros type N ->. simpl.
    destruct (String.eqb_spec type "CredentialsSignin"); [contradiction | reflexivity].
  - intros reason N ->. destruct reason; try reflexivity.
    destruct (N type eq_refl).
Qed.

(** C7: for every invoice creation that passes validation, the date bound
    into the INSERT is the calendar date, [YYYY-MM-DD], of the clock at
    the time of the call, and a [date] entry in the submission changes
    nothing: it is never read. *)
Theorem invoice_date_is_the_clock_date (prevState : State) (formData : FormData)
  (w : World) :
  rejected CreateInvoiceHandler formData = false ->
  (exists customerId amountInCents status,
      statements (trace (exec w (createInvoice prevState formData)))
      = [ (InsertInvoice,
           [ customerId; amountInCents; status;
             Str (JsDate.date_string (clock w)) ]) ])
  /\ forall supplied : FormDataEntryValue,
      exec w (createInvoice prevState (("date", supplied) :: formData))
      = exec w (createInvoice prevState formData).
Proof.
  rewrite invoice_rejected. intros R. apply negb_false_iff in R. split.
  - rewrite (createInvoice_run _ _ _ R), persisted_statements.
    do 3 eexists. reflexivity.
  - intros supplied. reflexivity.
Qed.

(** C8 (the code departs from it): [createUser] is to await
    [authenticate] to completion before it invalidates and redirects.
    It calls [authenticate] without [await]: on a submission that passes
    validation, once the INSERT has succeeded, the provider is called,
    [/dashboard] is invalidated and control goes to [/dashboard] while
    [authenticate] is still suspended at its [await] of the provider. *)
Theorem createUser_leaves_authenticate_pending (prevState : State)
  (formData : FormData) (w : World) (name email password : string)
  (rows : JsValue) :
  get formData "name" = Str name ->
  get formData "email" = Str email ->
  is_email email = true ->
  get formData "password" = Str password ->
  (8 <= String.length password)%nat ->
  sql w InsertUser [Str email; Str (bcrypt w password 10); Str name] = Fulfilled rows ->
  trace (exec w (createUser prevState formData))
  = [ Called (BcryptHash (Str password) 10);
      Did (ConsoleLog [Str email; Str (bcrypt w password 10)]);
      Called (Sql InsertUser [Str email; Str (bcrypt w password 10); Str name]);
      Called (SignIn "credentials" formData);
      Did (RevalidatePath "/dashboard") ]
  /\ completion (exec w (createUser prevState formData))
     = Rejected (NextRedirect "/dashboard")
  /\ map waits_for (pending (exec w (createUser prevState formData)))
     = [SignIn "credentials" formData].
Proof.
  intros Hn He Hm Hp Hl Q.
  rewrite (createUser_run _ _ _ name email password Hn He Hm Hp Hl), Q.
  repeat split.
Qed.

(** C9: no handler reads [prevState]: two calls that differ in it alone
    run alike, with the same events, the same result and the same
    suspended calls; so does [authenticate]. *)
Theorem prevState_is_never_read (h : Handler) (id : string)
  (prevState1 prevState2 : State) (formData : FormData) (w : World) :
  exec w (call h id prevState1 formData) = exec w (call h id prevState2 formData)
  /\ forall message1 message2 : option string,
      exec w (authenticate message1 formData) = exec w (authenticate message2 formData).
Proof.
  split; [destruct h |]; reflexivity.
Qed.

(** C10: in [createUser], once the INSERT has succeeded, [/dashboard] is
    invalidated and control goes to [/dashboard] whatever the provider
    answers: the answer changes neither the events nor the outcome of
    [createUser]. *)
Theorem createUser_ignores_the_provider (prevState : State) (formData : FormData)
  (w : World) (name email password : string) (rows : JsValue)
  (answer : Completion JsValue) :
  get formData "name" = Str name ->
  get formData "email" = Str email ->
  is_email email = true ->
  get formData "password" = Str password ->
  (8 <= String.length password)%nat ->
  sql w InsertUser [Str email; Str (bcrypt w password 10); Str name] = Fulfilled rows ->
  invalidated (trace (exec (with_signIn w answer) (createUser prevState formData)))
  = ["/dashboard"]
  /\ completion (exec (with_signIn w answer) (createUser prevState formData))
     = Rejected (NextRedirect "/dashboard")
  /\ trace (exec (with_signIn w answer) (createUser prevState formData))
     = trace (exec w (createUser prevState formData))
  /\ completion (exec (with_signIn w answer) (createUser prevState formData))
     = completion (exec w (createUser prevState formData)).
Proof.
  intros Hn He Hm Hp Hl Q.
  rewrite (createUser_run _ _ (with_signIn w answer) name email password Hn He Hm Hp Hl).
  rewrite (createUser_run _ _ w name email password Hn He Hm Hp Hl).
  cbn [with_signIn sql bcrypt]. rewrite Q. repeat split.
Qed.

(* ================================================================ *)
(** * Further properties of the handlers *)

(** ** The runs of the handlers, case by case *)

Lemma delete_run (h : Handler) (id : string) (prevState : State)
  (formData : FormData) (w : World) :
  is_delete h = true ->
  exists statement,
    (h = DeleteInvoiceHandler /\ statement = DeleteInvoiceById
     \/ h = DeleteCustomerHandler /\ statement = DeleteCustomerById)
    /\ exec w (call h id prevState formData)
       = match sql w statement [Str id] with
         | Fulfilled _ =>
             {| trace := [ Called (Sql statement [Str id]);
                           Did (RevalidatePath (listing h)) ];
                completion := success h;
                pending := [] |}
         | Rejected _ =>
             {| trace := [Called (Sql statement [Str id])];
                completion := Fulfilled (only_message (database_error h));
                pending := [] |}
         end.
Proof.
  destruct h; try discriminate; intros _; eexists; (split; [auto |]);
    cbn [call]; [unfold deleteInvoice | unfold deleteCustomer]; simpl;
    match goal with
    | |- context [sql w ?s ?v] => destruct (sql w s v)
    end; reflexivity.
Qed.

(** Every run of a handler is of one of three kinds: the submission is
    turned down and nothing happens; the one statement is issued and
    refused; the one statement is issued and taken, the listing is
    invalidated and the handler ends as its kind does. *)
Lemma run_cases (h : Handler) (id : string) (prevState : State)
  (formData : FormData) (w : World) :
  let r := exec w (call h id prevState formData) in
  (rejected h formData = true
   /\ trace r = []
   /\ exists error,
       completion r
       = Fulfilled {| errors := Some error; message := Some (missing_fields h) |})
  \/ (rejected h formData = false
      /\ exists statement values,
          statement = statement_of h
          /\ statements (trace r) = [(statement, values)]
          /\ ((exists reason,
                  sql w statement values = Rejected reason
                  /\ invalidated (trace r) = []
                  /\ provider_calls (trace r) = []
                  /\ completion r = Fulfilled (only_message (database_error h)))
              \/ (exists rows,
                     sql w statement values = Fulfilled rows
                     /\ invalidated (trace r) = [listing h]
                     /\ provider_calls (trace r)
                        = match h with
                          | CreateUserHandler => [("credentials", formData)]
                          | _ => []
                          end
                     /\ completion r = success h))).
Proof.
  intros r. subst r.
  destruct (rejected h formData) eqn:V.
  { left. destruct (rejected_run h id prevState formData w V) as (? & error & _ & _ & ->).
    repeat split. eexists. reflexivity. }
  right. split; [reflexivity |].
  assert (forall statement values,
             h <> CreateUserHandler -> is_delete h = false ->
             exec w (call h id prevState formData)
             = persisted w statement values (database_error h) (listing h) ->
             statement = statement_of h ->
             exists statement values,
               statement = statement_of h
               /\ statements (trace (exec w (call h id prevState formData)))
                  = [(statement, values)]
               /\ ((exists reason,
                       sql w statement values = Rejected reason
                       /\ invalidated (trace (exec w (call h id prevState formData))) = []
                       /\ provider_calls (trace (exec w (call h id prevState formData))) = []
                       /\ completion (exec w (call h id prevState formData))
                          = Fulfilled (only_message (database_error h)))
                   \/ (exists rows,
                          sql w statement values = Fulfilled rows
                          /\ invalidated (trace (exec w (call h id prevState formData)))
                             = [listing h]
                          /\ provider_calls (trace (exec w (call h id prevState formData)))
                             = match h with
                               | CreateUserHandler => [("credentials", formData)]
                               | _ => []
                               end
                          /\ completion (exec w (call h id prevState formData))
                             = success h))) as P.
  { intros statement values N D -> S. exists statement, values.
    rewrite persisted_statements. split; [exact S |]. split; [reflexivity |].
    unfold persisted, success. rewrite D.
    destruct (sql w statement values) as [rows | reason]; [right | left];
      eexists; (split; [reflexivity |]); destruct h; try discriminate;
      try contradiction; repeat split. }
  destruct h.
  - rewrite invoice_rejected in V. apply negb_false_iff in V.
    eapply P; [discriminate | reflexivity | apply (createInvoice_run _ _ _ V) | reflexivity].
  - change (rejected UpdateInvoiceHandler formData)
      with (rejected CreateInvoiceHandler formData) in V.
    rewrite invoice_rejected in V. apply negb_false_iff in V.
    eapply P; [discriminate | reflexivity | apply (updateInvoice_run _ _ _ _ V) | reflexivity].
  - destruct (delete_run DeleteInvoiceHandler id prevState formData w eq_refl)
      as (statement & [[_ ->] | [[=] _]] & ->).
    exists DeleteInvoiceById, [Str id].
    destruct (sql w DeleteInvoiceById [Str id]) as [rows | reason] eqn:Q;
      (split; [reflexivity |]); (split; [reflexivity |]); [right | left];
      eexists; repeat split; exact Q.
  - rewrite (rejected_forallb CreateCustomerHandler CreateCustomer) in V by reflexivity.
    apply negb_false_iff in V. rewrite customer_accepted in V.
    apply andb_true_iff in V as [V Hi]. apply andb_true_iff in V as [Hn He].
    eapply P;
      [discriminate | reflexivity | apply (createCustomer_run _ _ _ Hn He Hi) | reflexivity].
  - rewrite updateCustomer_rejected in V. discriminate.
  - destruct (delete_run DeleteCustomerHandler id prevState formData w eq_refl)
      as (statement & [[[=] _] | [_ ->]] & ->).
    exists DeleteCustomerById, [Str id].
    destruct (sql w DeleteCustomerById [Str id]) as [rows | reason] eqn:Q;
      (split; [reflexivity |]); (split; [reflexivity |]); [right | left];
      eexists; repeat split; exact Q.
  - rewrite (rejected_forallb CreateUserHandler CreateUser) in V by reflexivity.
    apply negb_false_iff in V. rewrite user_accepted in V.
    apply andb_true_iff in V as [V Hp]. apply andb_true_iff in V as [Hn He].
    destruct (get formData "name") as [| | name | |] eqn:En; try discriminate.
    destruct (get formData "email") as [| | email | |] eqn:Ee; try discriminate.
    destruct (get formData "password") as [| | password | |] eqn:Ep; try discriminate.
    apply Nat.leb_le in Hp. cbn [call].
    rewrite (createUser_run _ _ _ name email password En Ee He Ep Hp).
    exists InsertUser, [Str email; Str (bcrypt w password 10); Str name].
    destruct (sql w InsertUser [Str email; Str (bcrypt w password 10); Str name])
      as [rows | reason] eqn:Q;
      (split; [reflexivity |]); (split; [reflexivity |]); [right | left];
      eexists; repeat split.
Qed.

(** ** What every run has in common *)

(** X1: a run of a handler issues no statement when the submission is
    turned down and exactly one, the handler's own, otherwise. *)
Theorem one_statement_per_run (h : Handler) (id : string) (prevState : State)
  (formData : FormData) (w : World) :
  exists values,
    statements (trace (exec w (call h id prevState formData)))
    = if rejected h formData then [] else [(statement_of h, values)].
Proof.
  destruct (run_cases h id prevState formData w)
    as [(V & T & _) | (V & statement & values & -> & S & _)]; rewrite V.
  - exists []. rewrite T. reflexivity.
  - exists values. exact S.
Qed.

(** X2: a handler never fails with an error of its own: when its promise
    is rejected, it is by the redirect to the handler's listing, the handler
    is no delete handler, and that same listing has just been invalidated. *)
Theorem handlers_only_throw_redirects (h : Handler) (id : string)
  (prevState : State) (formData : FormData) (w : World) (reason : JsError) :
  completion (exec w (call h id prevState formData)) = Rejected reason ->
  reason = NextRedirect (listing h)
  /\ is_delete h = false
  /\ invalidated (trace (exec w (call h id prevState formData))) = [listing h].
Proof.
  destruct (run_cases h id prevState formData w)
    as [(_ & _ & error & C)
       | (_ & statement & values & _ & _
          & [(reason' & _ & _ & _ & C) | (rows & _ & I & _ & C)])];
    rewrite C; try discriminate.
  unfold success. destruct (is_delete h); [discriminate |].
  intros [= <-]. auto.
Qed.

(** X3: a path is invalidated only by a run whose statement the database
    took, and it is the listing of the handler, once. *)
Theorem invalidation_follows_success (h : Handler) (id : string)
  (prevState : State) (formData : FormData) (w : World) (path : string) :
  In path (invalidated (trace (exec w (call h id prevState formData)))) ->
  invalidated (trace (exec w (call h id prevState formData))) = [listing h]
  /\ exists values rows,
      statements (trace (exec w (call h id prevState formData)))
      = [(statement_of h, values)]
      /\ sql w (statement_of h) values = Fulfilled rows.
Proof.
  destruct (run_cases h id prevState formData w)
    as [(_ & T & _)
       | (_ & statement & values & -> & S
          & [(reason & _ & I & _) | (rows & Q & I & _)])].
  - rewrite T. intros [].
  - rewrite I. intros [].
  - intros _. split; [exact I |]. exists values, rows. auto.
Qed.

(** X4: a state a handler returns always has a message, and it has an
    error map exactly when the submission was turned down. *)
Theorem errors_mark_validation_failures (h : Handler) (id : string)
  (prevState : State) (formData : FormData) (w : World) (returned : State) :
  completion (exec w (call h id prevState formData)) = Fulfilled returned ->
  (exists text, message returned = Some text)
  /\ ((exists error, errors returned = Some error) <-> rejected h formData = true).
Proof.
  destruct (run_cases h id prevState formData w)
    as [(V & _ & error & C)
       | (V & statement & values & _ & _
          & [(reason & _ & _ & _ & C) | (rows & _ & _ & _ & C)])];
    rewrite C, V.
  - intros [= <-]. simpl. split; [eauto |]. split; eauto.
  - intros [= <-]. simpl. split; [eauto |].
    split; [intros [? [=]] | discriminate].
  - unfold success. destruct (is_delete h); [| discriminate].
    intros [= <-]. simpl. split; [eauto |].
    split; [intros [? [=]] | discriminate].
Qed.

(** X5: a delete handler validates nothing: whatever the id, the empty one
    included, it issues its DELETE with the id as the only parameter; it
    never redirects, and returns "Deleted <Entity>." after invalidating the
    listing exactly when the database took the statement. *)
Theorem delete_is_decided_by_the_database (h : Handler) (id : string)
  (prevState : State) (formData : FormData) (w : World) :
  is_delete h = true ->
  statements (trace (exec w (call h id prevState formData)))
  = [(statement_of h, [Str id])]
  /\ (exists returned,
         completion (exec w (call h id prevState formData)) = Fulfilled returned)
  /\ (completion (exec w (call h id prevState formData))
      = Fulfilled (only_message ("Deleted " ++ entity h ++ "."))
      <-> exists rows, sql w (statement_of h) [Str id] = Fulfilled rows)
  /\ (invalidated (trace (exec w (call h id prevState formData))) = [listing h]
      <-> exists rows, sql w (statement_of h) [Str id] = Fulfilled rows).
Proof.
  intros D. destruct (delete_run h id prevState formData w D) as (statement & K & ->).
  assert (statement = statement_of h) as ->
    by (destruct K as [[-> ->] | [-> ->]]; reflexivity).
  unfold success. rewrite D.
  destruct (sql w (statement_of h) [Str id]) as [rows | reason]; cbn [trace completion].
  - repeat split; eauto.
  - split; [reflexivity |]. split; [eauto |].
    split; (split; [| intros [? [=]]]).
    + destruct h; discriminate.
    + discriminate.
Qed.

(** X6: but for [createUser], which hands the whole submission to the
    provider, a handler reads the submission through the fields it extracts
    and nothing else: two submissions that yield the same fields run alike,
    whatever else they hold and in whatever order. *)
Theorem only_the_extracted_fields_matter (h : Handler) (id : string)
  (prevState : State) (formData formData' : FormData) (w : World) :
  h <> CreateUserHandler ->
  fields_of h formData = fields_of h formData' ->
  exec w (call h id prevState formData) = exec w (call h id prevState formData').
Proof.
  intros N E. destruct h; try contradiction; cbn [call]; try reflexivity;
    cbn [fields_of] in E;
    [ unfold createInvoice | unfold updateInvoice
    | unfold createCustomer | unfold updateCustomer ];
    rewrite E; reflexivity.
Qed.

(** X7: the identity provider is called by [createUser] alone, once, for
    the provider ["credentials"] and with the submission as it came, and
    only after the database took the INSERT of the user. *)
Theorem provider_is_called_after_the_insert (h : Handler) (id : string)
  (prevState : State) (formData : FormData) (w : World)
  (provider : string) (credentials : FormData) :
  In (provider, credentials)
     (provider_calls (trace (exec w (call h id prevState formData)))) ->
  h = CreateUserHandler
  /\ provider_calls (trace (exec w (call h id prevState formData)))
     = [("credentials", formData)]
  /\ provider = "credentials"
  /\ credentials = formData
  /\ exists values rows,
      statements (trace (exec w (call h id prevState formData)))
      = [(InsertUser, values)]
      /\ sql w InsertUser values = Fulfilled rows.
Proof.
  destruct (run_cases h id prevState formData w)
    as [(_ & T & _)
       | (_ & statement & values & -> & S
          & [(reason & _ & _ & P & _) | (rows & Q & _ & P & _)])].
  - rewrite T. intros [].
  - rewrite P. intros [].
  - rewrite P. destruct h; try (intros F; contradiction F).
    intros [[= <- <-] | []]. repeat split. exists values, rows. auto.
Qed.

(** X8: [authenticate] calls the provider once, for ["credentials"] and
    with the submission as it came, does nothing else, and returns
    [undefined] when the provider resolves. *)
Theorem authenticate_calls_the_provider_once (prevState : option string)
  (formData : FormData) (w : World) :
  trace (exec w (authenticate prevState formData))
  = [Called (SignIn "credentials" formData)]
  /\ pending (exec w (authenticate prevState formData)) = []
  /\ forall session,
      signIn w "credentials" formData = Fulfilled session ->
      completion (exec w (authenticate prevState formData)) = Fulfilled Undefined.
Proof.
  unfold authenticate. simpl.
  destruct (signIn w "credentials" formData) as [session | reason]; simpl.
  - repeat split.
  - destruct reason as [type | |]; simpl;
      try destruct (String.eqb type "CredentialsSignin"); simpl;
      (repeat split; intros ? [=]).
Qed.

(** ** The error map, field by field *)

Lemma get_is_defined (formData : FormData) (name : string) :
  get formData name <> Undefined.
Proof.
  induction formData as [| [k e] rest IH]; simpl; [discriminate |].
  destruct (String.eqb k name); [destruct e; discriminate | exact IH].
Qed.

Lemma fold_messages (key : string) (messages collected : list string)
  (errors : Zod.FieldErrors) :
  fold_left (fun errors issue => Zod.push errors (Zod.path issue) (Zod.message issue))
    (map (fun m => {| Zod.path := key; Zod.message := m |}) messages)
    ((key, collected) :: errors)
  = (key, collected ++ messages)%list :: errors.
Proof.
  revert collected. induction messages as [| m messages IH]; intros collected; simpl.
  - rewrite app_nil_r. reflexivity.
  - rewrite String.eqb_refl, IH, <- app_assoc. reflexivity.
Qed.

Lemma fieldErrors_by_field (schema : Zod.ZodObject) (input : JsObject) :
  NoDup (Zod.keys schema) ->
  Zod.fieldErrors (snd (Zod.parse_object schema input)) = refused_fields schema input.
Proof.
  induction schema as [| [key type] rest IH]; intros D; [reflexivity |].
  inversion D as [| ? ? Fresh D']; subst.
  rewrite issues_cons. cbn [refused_fields flat_map fst snd].
  fold (refused_fields rest input). rewrite <- (IH D').
  destruct (Zod.parse type (prop input key)) as [value | messages] eqn:P;
    [reflexivity |].
  apply parse_invalid_nonempty in P.
  destruct messages as [| m messages]; [contradiction |].
  unfold Zod.fieldErrors. rewrite fold_left_app. cbn [map fold_left Zod.push].
  cbn [Zod.path Zod.message].
  rewrite fold_messages, fieldErrors_head; [reflexivity |].
  eapply Forall_impl; [| apply issues_under_keys].
  intros issue I E. cbv beta in I. rewrite E in I. contradiction.
Qed.

Lemma failure_issues (schema : Zod.ZodObject) (input : JsObject)
  (error : list Zod.ZodIssue) :
  Zod.safeParse schema input = Zod.Failure error ->
  error = snd (Zod.parse_object schema input).
Proof.
  rewrite safeParse_issues.
  destruct (snd (Zod.parse_object schema input)); [discriminate |].
  intros [= <-]. reflexivity.
Qed.

Lemma handler_keys_differ (h : Handler) (schema : Zod.ZodObject) :
  schema_of h = Some schema -> NoDup (Zod.keys schema).
Proof.
  destruct h; try discriminate; intros [= <-];
    repeat (constructor; [simpl; intuition discriminate |]); constructor.
Qed.

Lemma handler_one_check (h : Handler) (schema : Zod.ZodObject) :
  schema_of h = Some schema ->
  Forall (fun field => one_check (snd field) = true) schema.
Proof.
  destruct h; try discriminate; intros [= <-]; repeat constructor.
Qed.

(** The state a handler returns for a submission it turns down holds the
    refused fields with their messages. *)
Lemma rejected_errors (h : Handler) (id : string) (prevState : State)
  (formData : FormData) (w : World) :
  rejected h formData = true ->
  exists schema,
    schema_of h = Some schema
    /\ exec w (call h id prevState formData)
       = {| trace := [];
            completion :=
              Fulfilled
                {| errors := Some (refused_fields schema (fields_of h formData));
                   message := Some (missing_fields h) |};
            pending := [] |}.
Proof.
  intros V.
  destruct (rejected_run h id prevState formData w V) as (schema & error & S & P & R).
  exists schema. split; [exact S |]. rewrite R.
  rewrite (failure_issues _ _ _ P), fieldErrors_by_field
    by (exact (handler_keys_differ h schema S)).
  reflexivity.
Qed.

Lemma refused_keys (schema : Zod.ZodObject) (input : JsObject) :
  map fst (refused_fields schema input)
  = map fst (filter (fun field =>
                       negb (Zod.accepts (snd field) (prop input (fst field))))
               schema).
Proof.
  induction schema as [| [key type] rest IH]; [reflexivity |].
  cbn [refused_fields flat_map filter fst snd]. fold (refused_fields rest input).
  unfold Zod.accepts at 1.
  destruct (Zod.parse type (prop input key)); simpl; rewrite IH; reflexivity.
Qed.

Lemma parse_one_message (schema : Zod.ZodType) (v : JsValue)
  (messages : list string) :
  one_check schema = true ->
  Zod.parse schema v = Zod.Invalid messages ->
  List.length messages = 1%nat.
Proof.
  revert v messages.
  induction schema as [custom checks | checks | values custom | inner IH];
    intros v messages O; simpl in *.
  - destruct v; try (intros [= <-]; reflexivity).
    destruct checks as [| c [| c' checks]]; try discriminate; simpl.
    rewrite app_nil_r.
    destruct c as [n text | matches text]; simpl.
    + destruct (String.length s <? n)%nat; [intros [= <-]; reflexivity | discriminate].
    + destruct (matches s); [discriminate | intros [= <-]; reflexivity].
  - destruct (PrimFloat.is_nan (JsNumber.ToNumber v)); [intros [= <-]; reflexivity |].
    destruct checks as [| c [| c' checks]]; try discriminate; simpl.
    rewrite app_nil_r. destruct c as [value text]; simpl.
    destruct (PrimFloat.leb (JsNumber.ToNumber v) value);
      [intros [= <-]; reflexivity | discriminate].
  - destruct v; try (intros [= <-]; reflexivity).
    destruct (existsb (String.eqb s) values); [discriminate | intros [= <-]; reflexivity].
  - destruct v; try (apply IH; exact O). discriminate.
Qed.

Lemma refused_one_message (schema : Zod.ZodObject) (input : JsObject) :
  Forall (fun field => one_check (snd field) = true) schema ->
  Forall (fun entry => List.length (snd entry) = 1%nat) (refused_fields schema input).
Proof.
  induction 1 as [| [key type] rest O F IH]; [constructor |].
  cbn [refused_fields flat_map fst snd]. fold (refused_fields rest input).
  destruct (Zod.parse type (prop input key)) as [value | messages] eqn:P;
    [exact IH |].
  constructor; [exact (parse_one_message type _ _ O P) | exact IH].
Qed.

(** A field that refuses its value is reported with its messages, and
    nothing happens. *)
Lemma refused_field_reported (h : Handler) (schema : Zod.ZodObject)
  (key : string) (type : Zod.ZodType) (messages : list string)
  (id : string) (prevState : State) (formData : FormData) (w : World) :
  schema_of h = Some schema ->
  In (key, type) schema ->
  Zod.parse type (prop (fields_of h formData) key) = Zod.Invalid messages ->
  trace (exec w (call h id prevState formData)) = []
  /\ In (key, messages) (reported (exec w (call h id prevState formData))).
Proof.
  intros S I P.
  assert (rejected h formData = true) as V.
  { rewrite (rejected_forallb h schema) by exact S. apply negb_true_iff.
    destruct (forallb _ schema) eqn:F; [| reflexivity].
    rewrite forallb_forall in F. specialize (F _ I). cbn [fst snd] in F.
    unfold Zod.accepts in F. rewrite P in F. discriminate. }
  destruct (rejected_errors h id prevState formData w V) as (schema' & S' & ->).
  rewrite S in S'. injection S' as <-.
  split; [reflexivity |]. unfold reported. cbn [completion].
  unfold refused_fields. apply in_flat_map. exists (key, type).
  split; [exact I |]. cbn [fst snd]. rewrite P. left. reflexivity.
Qed.

(** X9: the error map a handler returns lists, in the order of its schema,
    exactly the fields that refused their value, each once and with a
    single message. *)
Theorem error_map_lists_the_refused_fields (h : Handler) (id : string)
  (prevState : State) (formData : FormData) (w : World) :
  rejected h formData = true ->
  exists schema,
    schema_of h = Some schema
    /\ map fst (reported (exec w (call h id prevState formData)))
       = map fst (filter (fun field =>
                            negb (Zod.accepts (snd field)
                                    (prop (fields_of h formData) (fst field))))
                    schema)
    /\ NoDup (map fst (reported (exec w (call h id prevState formData))))
    /\ reported (exec w (call h id prevState formData)) <> []
    /\ Forall (fun entry => List.length (snd entry) = 1%nat)
         (reported (exec w (call h id prevState formData))).
Proof.
  intros V.
  destruct (rejected_errors h id prevState formData w V) as (schema & S & ->).
  exists schema. split; [exact S |]. unfold reported. cbn [completion].
  rewrite refused_keys. split; [reflexivity |]. split; [| split].
  - pose proof (handler_keys_differ h schema S) as D. unfold Zod.keys in D.
    clear - D. induction schema as [| field rest IH]; [constructor |].
    inversion D as [| ? ? Fresh D']; subst. simpl.
    destruct (negb _); [| exact (IH D')].
    simpl. constructor; [| exact (IH D')].
    intros I. apply Fresh. apply in_map_iff in I as (f & <- & I).
    apply filter_In in I as [I _]. apply in_map. exact I.
  - rewrite (rejected_forallb h schema) in V by exact S. apply negb_true_iff in V.
    intros E. apply (f_equal (map fst)) in E. rewrite refused_keys in E.
    clear - V E. induction schema as [| field rest IH]; [discriminate |].
    simpl in V, E. destruct (Zod.accepts (snd field) _); simpl in *;
      [auto | discriminate].
  - apply refused_one_message, (handler_one_check h), S.
Qed.

(** ** What gets a submission turned down, and with which message *)

(** X10: an invoice is taken, on creation and on update alike, exactly
    when [customerId] is a string (the empty one will do), the amount
    coerces to a number greater than 0 and the status is ["pending"] or
    ["paid"]. *)
Theorem invoice_is_taken_iff (formData : FormData) :
  rejected UpdateInvoiceHandler formData = rejected CreateInvoiceHandler formData
  /\ (rejected CreateInvoiceHandler formData = false
      <-> (exists customerId, get formData "customerId" = Str customerId)
          /\ PrimFloat.ltb zero (JsNumber.ToNumber (get formData "amount")) = true
          /\ (get formData "status" = Str "pending"
              \/ get formData "status" = Str "paid")).
Proof.
  split; [reflexivity |].
  rewrite invoice_rejected, negb_false_iff. cbn [rules_hold].
  rewrite !andb_true_iff. unfold rule_amount.
  assert (is_string (get formData "customerId") = true
          <-> exists customerId, get formData "customerId" = Str customerId) as ->.
  { destruct (get formData "customerId"); simpl; split;
      try discriminate; try (intros [? [=]]); eauto. }
  assert (rule_status (get formData "status") = true
          <-> get formData "status" = Str "pending"
              \/ get formData "status" = Str "paid") as ->.
  { destruct (get formData "status") as [| | s | |]; simpl;
      try (split; [discriminate | intros [[=] | [=]]]).
    rewrite orb_true_iff, !String.eqb_eq.
    split; (intros [E | E]; [left | right]; congruence). }
  tauto.
Qed.

(** X11: a customer is created exactly when the name is a string of at
    least 4 characters, the email is a string the pattern matches, and an
    [image] entry that is a string is present. *)
Theorem customer_is_taken_iff (formData : FormData) :
  rejected CreateCustomerHandler formData = false
  <-> (exists name,
          get formData "name" = Str name /\ (4 <= String.length name)%nat)
      /\ (exists email, get formData "email" = Str email /\ is_email email = true)
      /\ (exists image, get formData "image" = Str image).
Proof.
  rewrite (rejected_forallb CreateCustomerHandler CreateCustomer) by reflexivity.
  rewrite negb_false_iff, customer_accepted, !andb_true_iff.
  assert (rule_length 4 (get formData "name") = true
          <-> exists name,
              get formData "name" = Str name /\ (4 <= String.length name)%nat) as ->.
  { destruct (get formData "name") as [| | s | |]; cbn [rule_length rule_email];
      try (split; [discriminate | intros (? & [=] & _)]).
    rewrite Nat.leb_le. split; [eauto | intros (? & [= <-] & L); exact L]. }
  assert (rule_email (get formData "email") = true
          <-> exists email, get formData "email" = Str email /\ is_email email = true)
    as ->.
  { destruct (get formData "email") as [| | s | |]; cbn [rule_length rule_email];
      try (split; [discriminate | intros (? & [=] & _)]).
    split; [eauto | intros (? & [= <-] & L); exact L]. }
  assert (is_string (get formData "image") = true
          <-> exists image, get formData "image" = Str image) as ->.
  { destruct (get formData "image"); simpl; split;
      try discriminate; try (intros [? [=]]); eauto. }
  tauto.
Qed.

(** X12: a user is created (the submission passes validation) exactly when
    the name is a string, the email is a string the pattern matches, and
    the password is a string of at least 8 characters. *)
Theorem user_is_taken_iff (formData : FormData) :
  rejected CreateUserHandler formData = false
  <-> (exists name, get formData "name" = Str name)
      /\ (exists email, get formData "email" = Str email /\ is_email email = true)
      /\ (exists password,
             get formData "password" = Str password
             /\ (8 <= String.length password)%nat).
Proof.
  rewrite (rejected_forallb CreateUserHandler CreateUser) by reflexivity.
  rewrite negb_false_iff, user_accepted, !andb_true_iff.
  assert (is_string (get formData "name") = true
          <-> exists name, get formData "name" = Str name) as ->.
  { destruct (get formData "name"); simpl; split;
      try discriminate; try (intros [? [=]]); eauto. }
  assert (rule_email (get formData "email") = true
          <-> exists email, get formData "email" = Str email /\ is_email email = true)
    as ->.
  { destruct (get formData "email") as [| | s | |]; cbn [rule_length rule_email];
      try (split; [discriminate | intros (? & [=] & _)]).
    split; [eauto | intros (? & [= <-] & L); exact L]. }
  assert (rule_length 8 (get formData "password") = true
          <-> exists password,
              get formData "password" = Str password
              /\ (8 <= String.length password)%nat) as ->.
  { destruct (get formData "password") as [| | s | |]; cbn [rule_length rule_email];
      try (split; [discriminate | intros (? & [=] & _)]).
    rewrite Nat.leb_le. split; [eauto | intros (? & [= <-] & L); exact L]. }
  tauto.
Qed.

(** X13: an invoice whose amount does not coerce to a number greater than
    0 is turned down, on creation and on update, with nothing issued: under
    [amount] stands "Please enter an amount greater than $0." when the
    amount is a number (a missing amount coerces to 0), and zod's
    "Expected number, received nan" when it is not. *)
Theorem amount_not_above_zero_is_reported (h : Handler) (id : string)
  (prevState : State) (formData : FormData) (w : World) :
  h = CreateInvoiceHandler \/ h = UpdateInvoiceHandler ->
  PrimFloat.ltb zero (JsNumber.ToNumber (get formData "amount")) = false ->
  trace (exec w (call h id prevState formData)) = []
  /\ In ("amount",
         [ if PrimFloat.is_nan (JsNumber.ToNumber (get formData "amount"))
           then "Expected number, received nan"
           else "Please enter an amount greater than $0." ])
        (reported (exec w (call h id prevState formData))).
Proof.
  intros H L.
  assert (Zod.parse (Zod.ZCoerceNumber
                       [Zod.Gt zero "Please enter an amount greater than $0."])
            (get formData "amount")
          = Zod.Invalid
              [ if PrimFloat.is_nan (JsNumber.ToNumber (get formData "amount"))
                then "Expected number, received nan"
                else "Please enter an amount greater than $0." ]) as P.
  { simpl. pose proof (gt_zero_iff (JsNumber.ToNumber (get formData "amount"))) as G.
    destruct (PrimFloat.is_nan (JsNumber.ToNumber (get formData "amount")));
      [reflexivity |].
    destruct (PrimFloat.leb (JsNumber.ToNumber (get formData "amount")) zero);
      [reflexivity |].
    rewrite (proj2 G (conj eq_refl eq_refl)) in L. discriminate. }
  destruct H as [-> | ->];
    eapply (refused_field_reported _ CreateInvoice "amount");
    try reflexivity; try exact P; simpl; auto.
Qed.

(** X14: an invoice without a [customerId] entry, or with a file for one,
    is turned down with "Please select a customer." under [customerId]; one
    whose status is no string, with "Please select an invoice status."; one
    whose status is a string other than ["pending"] and ["paid"], with
    zod's own "Invalid enum value" message, which quotes the string. *)
Theorem customer_and_status_are_reported (h : Handler) (id : string)
  (prevState : State) (formData : FormData) (w : World) :
  h = CreateInvoiceHandler \/ h = UpdateInvoiceHandler ->
  (is_string (get formData "customerId") = false ->
   trace (exec w (call h id prevState formData)) = []
   /\ In ("customerId", ["Please select a customer."])
         (reported (exec w (call h id prevState formData))))
  /\ (is_string (get formData "status") = false ->
      trace (exec w (call h id prevState formData)) = []
      /\ In ("status", ["Please select an invoice status."])
            (reported (exec w (call h id prevState formData))))
  /\ (forall status,
         get formData "status" = Str status ->
         status <> "pending" -> status <> "paid" ->
         trace (exec w (call h id prevState formData)) = []
         /\ In ("status",
                [ "Invalid enum value. Expected 'pending' | 'paid', received '"
                  ++ status ++ "'" ])
               (reported (exec w (call h id prevState formData)))).
Proof.
  intros H. split; [| split].
  - intros N.
    assert (Zod.parse (Zod.ZString (Some "Please select a customer.") [])
              (get formData "customerId")
            = Zod.Invalid ["Please select a customer."]) as P.
    { pose proof (get_is_defined formData "customerId") as D.
      destruct (get formData "customerId"); try discriminate; try reflexivity.
      contradiction. }
    destruct H as [-> | ->];
      eapply (refused_field_reported _ CreateInvoice "customerId");
      try reflexivity; try exact P; simpl; auto.
  - intros N.
    assert (Zod.parse (Zod.ZEnum ["pending"; "paid"]
                         (Some "Please select an invoice status."))
              (get formData "status")
            = Zod.Invalid ["Please select an invoice status."]) as P.
    { pose proof (get_is_defined formData "status") as D.
      destruct (get formData "status"); try discriminate; try reflexivity.
      contradiction. }
    destruct H as [-> | ->];
      eapply (refused_field_reported _ CreateInvoice "status");
      try reflexivity; try exact P; simpl; auto.
  - intros status E N1 N2.
    assert (Zod.parse (Zod.ZEnum ["pending"; "paid"]
                         (Some "Please select an invoice status."))
              (get formData "status")
            = Zod.Invalid
                [ "Invalid enum value. Expected 'pending' | 'paid', received '"
                  ++ status ++ "'" ]) as P.
    { rewrite E. simpl.
      destruct (String.eqb_spec status "pending"); [contradiction |].
      destruct (String.eqb_spec status "paid"); [contradiction |]. reflexivity. }
    destruct H as [-> | ->];
      eapply (refused_field_reported _ CreateInvoice "status");
      try reflexivity; try exact P; simpl; auto.
Qed.

(** X15: a customer whose name is shorter than 4 characters is turned
    down, on creation and on update, with "Please enter your full name."
    under [name]; one whose email the pattern does not match, with "Please
    enter a valid email address." under [email]; and one with no [name]
    entry, with zod's "Expected string, received null", not with the
    message of the schema. *)
Theorem customer_fields_are_reported (h : Handler) (id : string)
  (prevState : State) (formData : FormData) (w : World) :
  h = CreateCustomerHandler \/ h = UpdateCustomerHandler ->
  (forall name,
      get formData "name" = Str name ->
      (String.length name < 4)%nat ->
      trace (exec w (call h id prevState formData)) = []
      /\ In ("name", ["Please enter your full name."])
            (reported (exec w (call h id prevState formData))))
  /\ (forall email,
         get formData "email" = Str email ->
         is_email email = false ->
         trace (exec w (call h id prevState formData)) = []
         /\ In ("email", ["Please enter a valid email address."])
               (reported (exec w (call h id prevState formData))))
  /\ (get formData "name" = Null ->
      trace (exec w (call h id prevState formData)) = []
      /\ In ("name", ["Expected string, received null"])
            (reported (exec w (call h id prevState formData)))).
Proof.
  intros H. split; [| split].
  - intros name E L.
    assert (Zod.parse (Zod.ZString None [Zod.Min 4 (Some "Please enter your full name.")])
              (get formData "name")
            = Zod.Invalid ["Please enter your full name."]) as P.
    { rewrite E. simpl. apply Nat.ltb_lt in L. rewrite L. reflexivity. }
    destruct H as [-> | ->];
      [ eapply (refused_field_reported _ CreateCustomer "name")
      | eapply (refused_field_reported _ CustomerFormSchema "name") ];
      try reflexivity; try exact P; simpl; auto.
  - intros email E L.
    assert (Zod.parse (Zod.ZString None
                         [Zod.Email is_email (Some "Please enter a valid email address.")])
              (get formData "email")
            = Zod.Invalid ["Please enter a valid email address."]) as P.
    { rewrite E. simpl. rewrite L. reflexivity. }
    destruct H as [-> | ->];
      [ eapply (refused_field_reported _ CreateCustomer "email")
      | eapply (refused_field_reported _ CustomerFormSchema "email") ];
      try reflexivity; try exact P; simpl; auto.
  - intros E.
    assert (Zod.parse (Zod.ZString None [Zod.Min 4 (Some "Please enter your full name.")])
              (get formData "name")
            = Zod.Invalid ["Expected string, received null"]) as P
      by (rewrite E; reflexivity).
    destruct H as [-> | ->];
      [ eapply (refused_field_reported _ CreateCustomer "name")
      | eapply (refused_field_reported _ CustomerFormSchema "name") ];
      try reflexivity; try exact P; simpl; auto.
Qed.

(** X16: a user whose password is shorter than 8 characters, or whose
    email the pattern does not match, is turned down before anything is
    hashed, printed or stored, with zod's own messages: "String must
    contain at least 8 character(s)" under [password], "Invalid email"
    under [email]. *)
Theorem user_fields_are_reported (prevState : State) (formData : FormData)
  (w : World) :
  (forall password,
      get formData "password" = Str password ->
      (String.length password < 8)%nat ->
      trace (exec w (createUser prevState formData)) = []
      /\ In ("password", ["String must contain at least 8 character(s)"])
            (reported (exec w (createUser prevState formData))))
  /\ (forall email,
         get formData "email" = Str email ->
         is_email email = false ->
         trace (exec w (createUser prevState formData)) = []
         /\ In ("email", ["Invalid email"])
               (reported (exec w (createUser prevState formData)))).
Proof.
  split.
  - intros password E L.
    assert (Zod.parse (Zod.ZString None [Zod.Min 8 None]) (get formData "password")
            = Zod.Invalid ["String must contain at least 8 character(s)"]) as P.
    { rewrite E. simpl. apply Nat.ltb_lt in L. rewrite L. reflexivity. }
    eapply (refused_field_reported CreateUserHandler CreateUser "password" _ _ "");
      try reflexivity; try exact P; simpl; auto.
  - intros email E L.
    assert (Zod.parse (Zod.ZString None [Zod.Email is_email None]) (get formData "email")
            = Zod.Invalid ["Invalid email"]) as P.
    { rewrite E. simpl. rewrite L. reflexivity. }
    eapply (refused_field_reported CreateUserHandler CreateUser "email" _ _ "");
      try reflexivity; try exact P; simpl; auto.
Qed.

(** ** What reaches the database *)

(** X17: whatever statement on invoices is issued binds a [customerId]
    that is a string of the submission, an amount that is a hundred times a
    number greater than 0, a status that is ["pending"] or ["paid"], and
    last the date of the clock (creation) or the id of the call (update). *)
Theorem only_valid_invoices_reach_the_database (h : Handler) (id : string)
  (prevState : State) (formData : FormData) (w : World)
  (statement : Statement) (values : list JsValue) :
  h = CreateInvoiceHandler \/ h = UpdateInvoiceHandler ->
  In (statement, values)
     (statements (trace (exec w (call h id prevState formData)))) ->
  exists customerId status,
    get formData "customerId" = Str customerId
    /\ get formData "status" = Str status
    /\ (status = "pending" \/ status = "paid")
    /\ PrimFloat.ltb zero (JsNumber.ToNumber (get formData "amount")) = true
    /\ statement = statement_of h
    /\ values
       = [ Str customerId;
           Num (JsNumber.ToNumber (get formData "amount") * 100)%float;
           Str status;
           match h with
           | UpdateInvoiceHandler => Str id
           | _ => Str (JsDate.date_string (clock w))
           end ].
Proof.
  intros H.
  destruct (rejected CreateInvoiceHandler formData) eqn:V.
  { assert (rejected h formData = true) as V' by (destruct H as [-> | ->]; exact V).
    destruct (rejected_run h id prevState formData w V') as (? & ? & _ & _ & ->).
    intros []. }
  rewrite invoice_rejected in V. apply negb_false_iff in V.
  assert (exists customerId status,
             get formData "customerId" = Str customerId
             /\ get formData "status" = Str status
             /\ (status = "pending" \/ status = "paid")
             /\ PrimFloat.ltb zero (JsNumber.ToNumber (get formData "amount")) = true)
    as (customerId & status & Ec & Es & Hs & Ha).
  { cbn [rules_hold] in V. apply andb_true_iff in V as [V Rs].
    apply andb_true_iff in V as [Rc Ra].
    destruct (get formData "customerId") as [| | customerId | |]; try discriminate.
    destruct (get formData "status") as [| | status | |]; try discriminate.
    exists customerId, status. repeat split; [| exact Ra].
    cbn [rule_status] in Rs. apply orb_true_iff in Rs as [E | E];
      apply String.eqb_eq in E; auto. }
  destruct H as [-> | ->]; cbn [call].
  - rewrite (createInvoice_run _ _ _ V), persisted_statements, Ec, Es.
    intros [[= <- <-] | []]. exists customerId, status. repeat split; assumption.
  - rewrite (updateInvoice_run _ _ _ _ V), persisted_statements, Ec, Es.
    intros [[= <- <-] | []]. exists customerId, status. repeat split; assumption.
Qed.

(** X18: the INSERT of a customer binds the name, the email and the image
    of the submission, unchanged and in that order: a name of at least 4
    characters, an email the pattern matches, an image that is a string. *)
Theorem only_valid_customers_reach_the_database (prevState : State)
  (formData : FormData) (w : World) (statement : Statement)
  (values : list JsValue) :
  In (statement, values)
     (statements (trace (exec w (createCustomer prevState formData)))) ->
  exists name email image,
    get formData "name" = Str name
    /\ get formData "email" = Str email
    /\ get formData "image" = Str image
    /\ (4 <= String.length name)%nat
    /\ is_email email = true
    /\ statement = InsertCustomer
    /\ values = [Str name; Str email; Str image].
Proof.
  destruct (rejected CreateCustomerHandler formData) eqn:V.
  { destruct (rejected_run CreateCustomerHandler "" prevState formData w V)
      as (? & ? & _ & _ & R).
    cbn [call] in R. rewrite R. intros []. }
  rewrite (rejected_forallb CreateCustomerHandler CreateCustomer) in V by reflexivity.
  apply negb_false_iff in V. rewrite customer_accepted in V.
  apply andb_true_iff in V as [V Hi]. apply andb_true_iff in V as [Hn He].
  rewrite (createCustomer_run _ _ _ Hn He Hi), persisted_statements.
  destruct (get formData "name") as [| | name | |]; try discriminate.
  destruct (get formData "email") as [| | email | |]; try discriminate.
  destruct (get formData "image") as [| | image | |]; try discriminate.
  intros [[= <- <-] | []]. exists name, email, image.
  cbn [rule_length] in Hn. apply Nat.leb_le in Hn. repeat split; assumption.
Qed.

(** X19: the INSERT of a user binds, for the password, the bcrypt hash of
    the submitted password at cost 10, between the email and the name; the
    password has at least 8 characters and the pattern matches the email;
    and by then the run has printed the email and the hash, once, whether
    the database takes the statement or not. *)
Theorem user_insert_binds_the_hash (prevState : State) (formData : FormData)
  (w : World) (statement : Statement) (values : list JsValue) :
  In (statement, values)
     (statements (trace (exec w (createUser prevState formData)))) ->
  exists name email password,
    get formData "name" = Str name
    /\ get formData "email" = Str email
    /\ get formData "password" = Str password
    /\ (8 <= String.length password)%nat
    /\ is_email email = true
    /\ statement = InsertUser
    /\ values = [Str email; Str (bcrypt w password 10); Str name]
    /\ printed (trace (exec w (createUser prevState formData)))
       = [[Str email; Str (bcrypt w password 10)]]
    /\ hd_error (trace (exec w (createUser prevState formData)))
       = Some (Called (BcryptHash (Str password) 10)).
Proof.
  destruct (rejected CreateUserHandler formData) eqn:V.
  { destruct (rejected_run CreateUserHandler "" prevState formData w V)
      as (? & ? & _ & _ & R).
    cbn [call] in R. rewrite R. intros []. }
  rewrite (rejected_forallb CreateUserHandler CreateUser) in V by reflexivity.
  apply negb_false_iff in V. rewrite user_accepted in V.
  apply andb_true_iff in V as [V Hp]. apply andb_true_iff in V as [Hn He].
  destruct (get formData "name") as [| | name | |] eqn:En; try discriminate.
  destruct (get formData "email") as [| | email | |] eqn:Ee; try discriminate.
  destruct (get formData "password") as [| | password | |] eqn:Ep; try discriminate.
  cbn [rule_length] in Hp. apply Nat.leb_le in Hp. cbn [rule_email] in He.
  rewrite (createUser_run _ _ _ name email password En Ee He Ep Hp).
  destruct (sql w InsertUser [Str email; Str (bcrypt w password 10); Str name]);
    cbn [trace statements flat_map app];
    intros [[= <- <-] | []]; exists name, email, password; repeat split; assumption.
Qed.

(** ** The date of an invoice *)

Lemma civil_in_range (day : Z) :
  0 <= day < 2932897 ->
  let '(y, m, d) := JsDate.civil day in
  1970 <= y <= 9999 /\ 1 <= m <= 12 /\ 1 <= d <= 31.
Proof.
  intros B. unfold JsDate.civil.
  set (era := (day + 719468) / 146097).
  set (doe := (day + 719468) mod 146097).
  assert (0 <= doe < 146097) as Bdoe by (apply Z.mod_pos_bound; lia).
  assert (day + 719468 = 146097 * era + doe) as Eday
    by (apply Z.div_mod; lia).
  assert (4 <= era <= 24) as Bera by lia.
  clearbody era doe.
  set (yoe := (doe - doe / 1460 + doe / 36524 - doe / 146096) / 365).
  set (doy := doe - (365 * yoe + yoe / 4 - yoe / 100)).
  assert (0 <= yoe <= 399 /\ 0 <= doy <= 365) as [Byoe Bdoy]
    by (subst doy yoe; Z.div_mod_to_equations; lia).
  assert (era = 4 -> yoe = 369 -> 306 <= doy) as First
    by (subst doy yoe; Z.div_mod_to_equations; lia).
  assert (era = 4 -> 369 <= yoe) as First'
    by (subst yoe; Z.div_mod_to_equations; lia).
  assert (era = 24 -> yoe = 399 -> doy <= 305) as Last
    by (subst doy yoe; Z.div_mod_to_equations; lia).
  clearbody doy yoe.
  set (mp := (5 * doy + 2) / 153).
  assert (0 <= mp <= 11) as Bmp by (subst mp; Z.div_mod_to_equations; lia).
  assert (1 <= doy - (153 * mp + 2) / 5 + 1 <= 31) as Bd
    by (subst mp; Z.div_mod_to_equations; lia).
  assert (mp < 10 <-> doy < 306) as Split by (subst mp; Z.div_mod_to_equations; lia).
  clearbody mp.
  destruct (mp <? 10) eqn:E; [apply Z.ltb_lt in E | apply Z.ltb_ge in E].
  - replace (mp + 3 <=? 2) with false by (symmetry; apply Z.leb_gt; lia).
    repeat split; lia.
  - replace (mp - 9 <=? 2) with true by (symmetry; apply Z.leb_le; lia).
    repeat split; lia.
Qed.

(** X20: between 1970 and the end of the year 9999, the date bound into
    the INSERT of an invoice is ten characters long: the four digits of a
    year from 1970 to 9999, a dash, the two digits of a month from 01 to
    12, a dash, and the two digits of a day from 01 to 31. *)
Theorem invoice_date_is_well_formed (prevState : State) (formData : FormData)
  (w : World) :
  0 <= clock w < 253402300800000 ->
  rejected CreateInvoiceHandler formData = false ->
  exists customerId amountInCents status year month day,
    statements (trace (exec w (createInvoice prevState formData)))
    = [ (InsertInvoice,
         [ customerId; amountInCents; status;
           Str (JsDate.pad 4 year ++ "-" ++ JsDate.pad 2 month ++ "-"
                  ++ JsDate.pad 2 day) ]) ]
    /\ 1970 <= year <= 9999
    /\ 1 <= month <= 12
    /\ 1 <= day <= 31
    /\ String.length (JsDate.pad 4 year ++ "-" ++ JsDate.pad 2 month ++ "-"
                        ++ JsDate.pad 2 day) = 10%nat.
Proof.
  intros B V. rewrite invoice_rejected in V. apply negb_false_iff in V.
  rewrite (createInvoice_run _ _ _ V), persisted_statements.
  unfold JsDate.date_string.
  assert (0 <= JsDate.Day (clock w) < 2932897) as D.
  { unfold JsDate.Day, JsDate.msPerDay. split.
    - apply Z.div_pos; lia.
    - apply Z.div_lt_upper_bound; lia. }
  pose proof (civil_in_range _ D) as C.
  destruct (JsDate.civil (JsDate.Day (clock w))) as [[year month] day].
  destruct C as (By & Bm & Bd).
  exists (get formData "customerId"),
    (Num (JsNumber.ToNumber (get formData "amount") * 100)%float),
    (get formData "status"), year, month, day.
  unfold JsDate.year_string.
  replace ((0 <=? year) && (year <=? 9999)) with true
    by (symmetry; apply andb_true_iff; split; apply Z.leb_le; lia).
  repeat split; lia.
Qed.

End Actions.

(* ================================================================== *)
(** * The library models, checked on known values *)

Example Number_of_decimal_strings :
  map JsNumber.of_string ["12.50"; "0"; ""; "  42 "; "1e3"; ".5"; "0x1F"; "1.1"]
  = [12.5; 0; 0; 42; 1000; 0.5; 31; 0x1.199999999999ap+0]%float.
Proof. vm_compute. reflexivity. Qed.

Example Number_of_other_strings :
  map JsNumber.of_string ["abc"; "1e400"; "-Infinity"; "9007199254740993"; "1 2"; "0x"]
  = [nan; infinity; neg_infinity; 9007199254740992; nan; nan]%float.
Proof. vm_compute. reflexivity. Qed.

Example toISOString_of_known_times :
  map JsDate.toISOString [0; -1; 1709164800123; 951782400000; 253402300800000]
  = [ "1970-01-01T00:00:00.000Z"; "1969-12-31T23:59:59.999Z";
      "2024-02-29T00:00:00.123Z"; "2000-02-29T00:00:00.000Z";
      "+010000-01-01T00:00:00.000Z" ].
Proof. vm_compute. reflexivity. Qed.

Example plain_email_on_addresses :
  map plain_email ["jane@x.com"; "jane"; "jane@x"; "@x.com"; "a@b@c.d"]
  = [true; false; false; false; false].
Proof. vm_compute. reflexivity. Qed.

(* ================================================================== *)
(** * The claims on concrete submissions *)

(** The submission of Jane Doe, name and email alone, is turned down. *)
Lemma jane_doe_is_turned_down :
  get jane_doe "image" = Null
  /\ exists others,
       exec quiet_world (createCustomer plain_email no_state jane_doe)
       = {| trace := [];
            completion :=
              Fulfilled
                {| errors := Some (others ++ [("image", ["Expected string, received null"])])%list;
                   message := Some "Missing Fields. Failed to Create Customer." |};
            pending := [] |}.
Proof.
  split; [reflexivity |].
  apply (createCustomer_without_image plain_email no_state jane_doe quiet_world).
  reflexivity.
Defined.

(** What Jane Doe's submission returns, in full. *)
Example jane_doe_run :
  exec quiet_world (createCustomer plain_email no_state jane_doe)
  = {| trace := [];
       completion :=
         Fulfilled
           {| errors := Some [("image", ["Expected string, received null"])];
              message := Some "Missing Fields. Failed to Create Customer." |};
       pending := [] |}.
Proof. vm_compute. reflexivity. Qed.

(** An update of a customer with every field in order is turned down. *)
Example customer_update_run :
  exec quiet_world
    (updateCustomer plain_email "7" no_state
       (("image", EntryString "/customers/jane.png") :: jane_doe))
  = {| trace := [];
       completion :=
         Fulfilled
           {| errors := Some [("id", ["Required"])];
              message := Some "Missing Fields. Failed to Update Customer." |};
       pending := [] |}.
Proof. vm_compute. reflexivity. Qed.

(** The amount 12.50 is bound as 1250, on creation and on update. *)
Lemma twelve_fifty_is_1250 :
  rejected plain_email CreateInvoiceHandler (invoice_submission "c1" "12.50" "pending") = false
  /\ statements (trace (exec quiet_world
                          (createInvoice no_state (invoice_submission "c1" "12.50" "pending"))))
     = [ (InsertInvoice, [Str "c1"; Num 1250; Str "pending"; Str "2024-02-29"]) ]
  /\ statements (trace (exec quiet_world
                          (updateInvoice "7" no_state
                             (invoice_submission "c1" "12.50" "pending"))))
     = [ (UpdateInvoiceById, [Str "c1"; Num 1250; Str "pending"; Str "7"]) ].
Proof.
  split; [vm_compute; reflexivity |].
  exact (invoice_amount_is_the_double_product plain_email "7" no_state
           (invoice_submission "c1" "12.50" "pending") quiet_world
           (eq_refl false)).
Defined.

(** C3 as stated fails on the amount 1.1: the amount bound is
    110.00000000000001, which is neither a hundred times the double read
    from "1.1" nor 110. *)
Lemma amount_1_1_is_not_exact :
  rejected plain_email CreateInvoiceHandler (invoice_submission "c1" "1.1" "pending") = false
  /\ statements (trace (exec quiet_world
                          (createInvoice no_state (invoice_submission "c1" "1.1" "pending"))))
     = [ (InsertInvoice,
          [Str "c1"; Num 0x1.b800000000001p+6; Str "pending"; Str "2024-02-29"]) ]
  /\ ~ exactly_times_100 (JsNumber.of_string "1.1") 0x1.b800000000001p+6
  /\ ~ exact_is 0x1.b800000000001p+6 110.
Proof.
  repeat split; try (vm_compute; reflexivity).
  - unfold exactly_times_100, exact_is.
    replace (JsNumber.exact_value (JsNumber.of_string "1.1"))
      with (Some (4953959590107546 # 4503599627370496)) by (vm_compute; reflexivity).
    replace (JsNumber.exact_value 0x1.b800000000001p+6)
      with (Some (7740561859543041 # 70368744177664)) by (vm_compute; reflexivity).
    unfold Qeq. simpl. discriminate.
  - unfold exact_is.
    replace (JsNumber.exact_value 0x1.b800000000001p+6)
      with (Some (7740561859543041 # 70368744177664)) by (vm_compute; reflexivity).
    unfold Qeq. simpl. discriminate.
Qed.

(** C4 as stated fails on an empty [customerId]: the table's rule, a
    non-empty string, is broken, and yet the INSERT is issued, the list is
    invalidated and control goes to it. *)
Lemma empty_customerId_is_persisted :
  rules_hold plain_email non_empty_string CreateInvoiceHandler
    (invoice_submission "" "5" "paid") = false
  /\ exec quiet_world (createInvoice no_state (invoice_submission "" "5" "paid"))
     = {| trace := [ Called (Sql InsertInvoice
                               [Str ""; Num 500; Str "paid"; Str "2024-02-29"]);
                     Did (RevalidatePath "/dashboard/invoices") ];
          completion := Rejected (NextRedirect "/dashboard/invoices");
          pending := [] |}.
Proof. split; vm_compute; reflexivity. Qed.

(** The scenario of the zero amount, on any clock and database. *)
Lemma zero_amount_run (prevState : State) (w : World) :
  exec w (createInvoice prevState (invoice_submission "c1" "0" "pending"))
  = {| trace := [];
       completion :=
         Fulfilled
           {| errors := Some [("amount", ["Please enter an amount greater than $0."])];
              message := Some "Missing Fields. Failed to Create Invoice." |};
       pending := [] |}.
Proof. vm_compute. reflexivity. Qed.

(** Submitting [{customerId: "c1", amount: "0", status: "pending"}] to
    invoice creation breaks the rule on the amount and returns the error map
    with the one message under [amount]. *)
Lemma zero_amount_is_turned_down :
  rules_hold plain_email is_string CreateInvoiceHandler
    (invoice_submission "c1" "0" "pending") = false
  /\ exec quiet_world (createInvoice no_state (invoice_submission "c1" "0" "pending"))
     = {| trace := [];
          completion :=
            Fulfilled
              {| errors := Some [("amount", ["Please enter an amount greater than $0."])];
                 message := Some "Missing Fields. Failed to Create Invoice." |};
          pending := [] |}.
Proof.
  split; [vm_compute; reflexivity |].
  destruct (broken_rule_returns_errors plain_email CreateInvoiceHandler "" no_state
              (invoice_submission "c1" "0" "pending") quiet_world
              (eq_refl false))
    as (schema & error & S & P & R).
  injection S as <-. vm_compute in P. injection P as <-. exact R.
Defined.

(** An INSERT the database refuses is reported by its message alone. *)
Lemma refused_insert_is_reported :
  In (InsertInvoice, [Str "c1"; Num 1250; Str "pending"; Str "2024-02-29"])
     (statements (trace (exec failing_world
                           (call plain_email CreateInvoiceHandler "" no_state
                              (invoice_submission "c1" "12.50" "pending")))))
  /\ sql failing_world InsertInvoice [Str "c1"; Num 1250; Str "pending"; Str "2024-02-29"]
     = Rejected (OtherError "connection refused")
  /\ completion (exec failing_world
                   (call plain_email CreateInvoiceHandler "" no_state
                      (invoice_submission "c1" "12.50" "pending")))
     = Fulfilled {| errors := None;
                    message := Some "Database Error: Failed to Create Invoice." |}
  /\ invalidated (trace (exec failing_world
                           (call plain_email CreateInvoiceHandler "" no_state
                              (invoice_submission "c1" "12.50" "pending"))))
     = [].
Proof.
  assert (In (InsertInvoice, [Str "c1"; Num 1250; Str "pending"; Str "2024-02-29"])
            (statements (trace (exec failing_world
                                  (call plain_email CreateInvoiceHandler "" no_state
                                     (invoice_submission "c1" "12.50" "pending"))))))
    as I by (vm_compute; left; reflexivity).
  split; [exact I |]. split; [reflexivity |].
  exact (persistence_failure_is_reported plain_email CreateInvoiceHandler "" no_state
           (invoice_submission "c1" "12.50" "pending") failing_world
           InsertInvoice [Str "c1"; Num 1250; Str "pending"; Str "2024-02-29"]
           (OtherError "connection refused") I eq_refl).
Defined.

(** A delete the database refuses, and one it takes. *)
Example refused_delete_run :
  exec failing_world (deleteInvoice "no-such-id")
  = {| trace := [Called (Sql DeleteInvoiceById [Str "no-such-id"])];
       completion :=
         Fulfilled {| errors := None;
                      message := Some "Database Error: Failed to Delete Invoice." |};
       pending := [] |}
  /\ exec quiet_world (deleteInvoice "no-such-id")
     = {| trace := [ Called (Sql DeleteInvoiceById [Str "no-such-id"]);
                     Did (RevalidatePath "/dashboard/invoices") ];
          completion := Fulfilled {| errors := None; message := Some "Deleted Invoice." |};
          pending := [] |}.
Proof. split; reflexivity. Qed.

(** The three answers of [authenticate]: refused credentials, another
    authentication error, and an error of another kind (here the redirect a
    successful sign-in throws). *)
Lemma authenticate_on_three_answers :
  completion (exec quiet_world (authenticate None jane_doe_user))
  = Fulfilled (Str "Invalid credentials.")
  /\ completion (exec (with_signIn quiet_world (Rejected (AuthError "CallbackRouteError")))
                   (authenticate None jane_doe_user))
     = Fulfilled (Str "Something went wrong.")
  /\ completion (exec (with_signIn quiet_world (Rejected (NextRedirect "/dashboard")))
                   (authenticate None jane_doe_user))
     = Rejected (NextRedirect "/dashboard").
Proof.
  split; [| split].
  - apply (proj1 (authenticate_translates_failures None jane_doe_user quiet_world)).
    reflexivity.
  - apply (proj1 (proj2 (authenticate_translates_failures None jane_doe_user
                           (with_signIn quiet_world
                              (Rejected (AuthError "CallbackRouteError")))))
             "CallbackRouteError");
      [discriminate | reflexivity].
  - apply (proj2 (proj2 (authenticate_translates_failures None jane_doe_user
                           (with_signIn quiet_world
                              (Rejected (NextRedirect "/dashboard")))))
             (NextRedirect "/dashboard"));
      [discriminate | reflexivity].
Defined.

(** An invoice created on 2024-02-29 carries that date, with or without a
    [date] in the submission. *)
Lemma invoice_of_leap_day :
  rejected plain_email CreateInvoiceHandler (invoice_submission "c1" "12.50" "pending") = false
  /\ (exists customerId amountInCents status,
         statements (trace (exec quiet_world
                              (createInvoice no_state
                                 (invoice_submission "c1" "12.50" "pending"))))
         = [ (InsertInvoice, [customerId; amountInCents; status; Str "2024-02-29"]) ])
  /\ forall supplied : FormDataEntryValue,
      exec quiet_world
        (createInvoice no_state
           (("date", supplied) :: invoice_submission "c1" "12.50" "pending"))
      = exec quiet_world
          (createInvoice no_state (invoice_submission "c1" "12.50" "pending")).
Proof.
  split; [vm_compute; reflexivity |].
  exact (invoice_date_is_the_clock_date plain_email no_state
           (invoice_submission "c1" "12.50" "pending") quiet_world (eq_refl false)).
Defined.

(** Jane Doe's account: the provider is called and [/dashboard] invalidated
    while [authenticate] still waits for the provider. *)
Lemma jane_doe_is_redirected_unauthenticated :
  get jane_doe_user "name" = Str "Jane Doe"
  /\ get jane_doe_user "email" = Str "jane@x.com"
  /\ plain_email "jane@x.com" = true
  /\ get jane_doe_user "password" = Str "correct horse"
  /\ (8 <= String.length "correct horse")%nat
  /\ sql quiet_world InsertUser
       [Str "jane@x.com"; Str (bcrypt quiet_world "correct horse" 10); Str "Jane Doe"]
     = Fulfilled Undefined
  /\ trace (exec quiet_world (createUser plain_email no_state jane_doe_user))
     = [ Called (BcryptHash (Str "correct horse") 10);
         Did (ConsoleLog [Str "jane@x.com"; Str (bcrypt quiet_world "correct horse" 10)]);
         Called (Sql InsertUser
                   [Str "jane@x.com"; Str (bcrypt quiet_world "correct horse" 10);
                    Str "Jane Doe"]);
         Called (SignIn "credentials" jane_doe_user);
         Did (RevalidatePath "/dashboard") ]
  /\ completion (exec quiet_world (createUser plain_email no_state jane_doe_user))
     = Rejected (NextRedirect "/dashboard")
  /\ map waits_for (pending (exec quiet_world (createUser plain_email no_state jane_doe_user)))
     = [SignIn "credentials" jane_doe_user].
Proof.
  do 6 (split; [try reflexivity; simpl; lia |]).
  exact (createUser_leaves_authenticate_pending plain_email no_state jane_doe_user
           quiet_world "Jane Doe" "jane@x.com" "correct horse" Undefined
           eq_refl eq_refl eq_refl eq_refl
           (proj1 (Nat.leb_le 8 13) eq_refl) eq_refl).
Defined.

(** Jane Doe's account is created and she is sent to [/dashboard] whether
    the provider refuses her credentials or not. *)
Lemma jane_doe_is_redirected_whatever_the_provider :
  get jane_doe_user "name" = Str "Jane Doe"
  /\ get jane_doe_user "email" = Str "jane@x.com"
  /\ plain_email "jane@x.com" = true
  /\ get jane_doe_user "password" = Str "correct horse"
  /\ (8 <= String.length "correct horse")%nat
  /\ sql quiet_world InsertUser
       [Str "jane@x.com"; Str (bcrypt quiet_world "correct horse" 10); Str "Jane Doe"]
     = Fulfilled Undefined
  /\ invalidated (trace (exec (with_signIn quiet_world (Fulfilled Undefined))
                           (createUser plain_email no_state jane_doe_user)))
     = ["/dashboard"]
  /\ completion (exec (with_signIn quiet_world (Fulfilled Undefined))
                   (createUser plain_email no_state jane_doe_user))
     = Rejected (NextRedirect "/dashboard")
  /\ trace (exec (with_signIn quiet_world (Fulfilled Undefined))
              (createUser plain_email no_state jane_doe_user))
     = trace (exec quiet_world (createUser plain_email no_state jane_doe_user))
  /\ completion (exec (with_signIn quiet_world (Fulfilled Undefined))
                   (createUser plain_email no_state jane_doe_user))
     = completion (exec quiet_world (createUser plain_email no_state jane_doe_user)).
Proof.
  do 6 (split; [try reflexivity; simpl; lia |]).
  exact (createUser_ignores_the_provider plain_email no_state jane_doe_user
           quiet_world "Jane Doe" "jane@x.com" "correct horse" Undefined
           (Fulfilled Undefined)
           eq_refl eq_refl eq_refl eq_refl
           (proj1 (Nat.leb_le 8 13) eq_refl) eq_refl).
Defined.

(* ================================================================== *)
(** * The further properties on concrete submissions *)

(** A created invoice ends in the redirect to the invoices. *)
Lemma created_invoice_redirects :
  completion (exec quiet_world
                (call plain_email CreateInvoiceHandler "" no_state
                   (invoice_submission "c1" "12.50" "pending")))
  = Rejected (NextRedirect "/dashboard/invoices")
  /\ NextRedirect "/dashboard/invoices" = NextRedirect (listing CreateInvoiceHandler)
  /\ is_delete CreateInvoiceHandler = false
  /\ invalidated (trace (exec quiet_world
                           (call plain_email CreateInvoiceHandler "" no_state
                              (invoice_submission "c1" "12.50" "pending"))))
     = [listing CreateInvoiceHandler].
Proof.
  split; [vm_compute; reflexivity |].
  apply (handlers_only_throw_redirects plain_email CreateInvoiceHandler "" no_state
           (invoice_submission "c1" "12.50" "pending") quiet_world).
  vm_compute. reflexivity.
Defined.

(** The invoices are invalidated by an update the database took. *)
Lemma updated_invoice_invalidates :
  In "/dashboard/invoices"
     (invalidated (trace (exec quiet_world
                            (call plain_email UpdateInvoiceHandler "7" no_state
                               (invoice_submission "c1" "12.50" "paid")))))
  /\ invalidated (trace (exec quiet_world
                           (call plain_email UpdateInvoiceHandler "7" no_state
                              (invoice_submission "c1" "12.50" "paid"))))
     = [listing UpdateInvoiceHandler]
  /\ exists values rows,
      statements (trace (exec quiet_world
                           (call plain_email UpdateInvoiceHandler "7" no_state
                              (invoice_submission "c1" "12.50" "paid"))))
      = [(statement_of UpdateInvoiceHandler, values)]
      /\ sql quiet_world (statement_of UpdateInvoiceHandler) values = Fulfilled rows.
Proof.
  split; [vm_compute; left; reflexivity |].
  apply (invalidation_follows_success plain_email UpdateInvoiceHandler "7" no_state
           (invoice_submission "c1" "12.50" "paid") quiet_world "/dashboard/invoices").
  vm_compute. left. reflexivity.
Defined.

(** The state returned for Jane Doe's submission has a message and an error
    map; the submission was turned down. *)
Lemma jane_doe_state_has_errors :
  completion (exec quiet_world
                (call plain_email CreateCustomerHandler "" no_state jane_doe))
  = Fulfilled {| errors := Some [("image", ["Expected string, received null"])];
                 message := Some "Missing Fields. Failed to Create Customer." |}
  /\ (exists text, Some "Missing Fields. Failed to Create Customer." = Some text)
  /\ ((exists error : Zod.FieldErrors,
          Some [("image", ["Expected string, received null"])] = Some error)
      <-> rejected plain_email CreateCustomerHandler jane_doe = true).
Proof.
  split; [vm_compute; reflexivity |].
  apply (errors_mark_validation_failures plain_email CreateCustomerHandler "" no_state
           jane_doe quiet_world
           {| errors := Some [("image", ["Expected string, received null"])];
              message := Some "Missing Fields. Failed to Create Customer." |}).
  vm_compute. reflexivity.
Defined.

(** The delete of a customer with the empty id. *)
Lemma delete_of_the_empty_id :
  is_delete DeleteCustomerHandler = true
  /\ statements (trace (exec failing_world
                          (call plain_email DeleteCustomerHandler "" no_state [])))
     = [(statement_of DeleteCustomerHandler, [Str ""])]
  /\ (exists returned,
         completion (exec failing_world
                       (call plain_email DeleteCustomerHandler "" no_state []))
         = Fulfilled returned)
  /\ (completion (exec failing_world
                    (call plain_email DeleteCustomerHandler "" no_state []))
      = Fulfilled (only_message ("Deleted " ++ entity DeleteCustomerHandler ++ "."))
      <-> exists rows,
          sql failing_world (statement_of DeleteCustomerHandler) [Str ""] = Fulfilled rows)
  /\ (invalidated (trace (exec failing_world
                            (call plain_email DeleteCustomerHandler "" no_state [])))
      = [listing DeleteCustomerHandler]
      <-> exists rows,
          sql failing_world (statement_of DeleteCustomerHandler) [Str ""] = Fulfilled rows).
Proof.
  split; [reflexivity |].
  apply (delete_is_decided_by_the_database plain_email DeleteCustomerHandler ""
           no_state [] failing_world).
  reflexivity.
Defined.

(** A submission with an unknown entry, the fields in another order and a
    second [customerId] runs as the plain one. *)
Lemma crowded_submission_runs_alike :
  CreateInvoiceHandler <> CreateUserHandler
  /\ fields_of CreateInvoiceHandler
       [ ("note", EntryString "urgent"); ("status", EntryString "pending");
         ("amount", EntryString "12.50"); ("customerId", EntryString "c1");
         ("customerId", EntryString "c2") ]
     = fields_of CreateInvoiceHandler (invoice_submission "c1" "12.50" "pending")
  /\ exec quiet_world
       (call plain_email CreateInvoiceHandler "" no_state
          [ ("note", EntryString "urgent"); ("status", EntryString "pending");
            ("amount", EntryString "12.50"); ("customerId", EntryString "c1");
            ("customerId", EntryString "c2") ])
     = exec quiet_world
         (call plain_email CreateInvoiceHandler "" no_state
            (invoice_submission "c1" "12.50" "pending")).
Proof.
  split; [discriminate |]. split; [reflexivity |].
  apply (only_the_extracted_fields_matter plain_email CreateInvoiceHandler "" no_state).
  - discriminate.
  - reflexivity.
Defined.

(** The provider is called for Jane Doe once her account is stored. *)
Lemma jane_doe_reaches_the_provider :
  In ("credentials", jane_doe_user)
     (provider_calls (trace (exec quiet_world
                               (call plain_email CreateUserHandler "" no_state
                                  jane_doe_user))))
  /\ CreateUserHandler = CreateUserHandler
  /\ provider_calls (trace (exec quiet_world
                              (call plain_email CreateUserHandler "" no_state
                                 jane_doe_user)))
     = [("credentials", jane_doe_user)]
  /\ "credentials" = "credentials"
  /\ jane_doe_user = jane_doe_user
  /\ exists values rows,
      statements (trace (exec quiet_world
                           (call plain_email CreateUserHandler "" no_state
                              jane_doe_user)))
      = [(InsertUser, values)]
      /\ sql quiet_world InsertUser values = Fulfilled rows.
Proof.
  split; [vm_compute; left; reflexivity |].
  apply (provider_is_called_after_the_insert plain_email CreateUserHandler "" no_state
           jane_doe_user quiet_world "credentials" jane_doe_user).
  vm_compute. left. reflexivity.
Defined.

(** The error map of the empty submission to invoice creation. *)
Lemma empty_invoice_submission_errors :
  rejected plain_email CreateInvoiceHandler [] = true
  /\ exists schema,
      schema_of plain_email CreateInvoiceHandler = Some schema
      /\ map fst (reported (exec quiet_world
                              (call plain_email CreateInvoiceHandler "" no_state [])))
         = map fst (filter (fun field =>
                              negb (Zod.accepts (snd field)
                                      (prop (fields_of CreateInvoiceHandler [])
                                         (fst field))))
                      schema)
      /\ NoDup (map fst (reported (exec quiet_world
                                     (call plain_email CreateInvoiceHandler "" no_state []))))
      /\ reported (exec quiet_world
                     (call plain_email CreateInvoiceHandler "" no_state [])) <> []
      /\ Forall (fun entry => List.length (snd entry) = 1%nat)
           (reported (exec quiet_world
                        (call plain_email CreateInvoiceHandler "" no_state []))).
Proof.
  split; [vm_compute; reflexivity |].
  apply (error_map_lists_the_refused_fields plain_email CreateInvoiceHandler "" no_state
           [] quiet_world).
  vm_compute. reflexivity.
Defined.

(** What the empty submission to invoice creation returns, in full. *)
Example empty_invoice_submission_run :
  exec quiet_world (createInvoice no_state [])
  = {| trace := [];
       completion :=
         Fulfilled
           {| errors :=
                Some [ ("customerId", ["Please select a customer."]);
                       ("amount", ["Please enter an amount greater than $0."]);
                       ("status", ["Please select an invoice status."]) ];
              message := Some "Missing Fields. Failed to Create Invoice." |};
       pending := [] |}.
Proof. vm_compute. reflexivity. Qed.

(** A negative amount and an amount that is no number. *)
Lemma negative_amount_is_reported :
  (UpdateInvoiceHandler = CreateInvoiceHandler
   \/ UpdateInvoiceHandler = UpdateInvoiceHandler)
  /\ PrimFloat.ltb zero
       (JsNumber.ToNumber (get (invoice_submission "c1" "-3" "paid") "amount"))
     = false
  /\ trace (exec quiet_world
              (call plain_email UpdateInvoiceHandler "7" no_state
                 (invoice_submission "c1" "-3" "paid")))
     = []
  /\ In ("amount", ["Please enter an amount greater than $0."])
        (reported (exec quiet_world
                     (call plain_email UpdateInvoiceHandler "7" no_state
                        (invoice_submission "c1" "-3" "paid")))).
Proof.
  split; [right; reflexivity |]. split; [vm_compute; reflexivity |].
  exact (amount_not_above_zero_is_reported plain_email UpdateInvoiceHandler "7"
           no_state (invoice_submission "c1" "-3" "paid") quiet_world
           (or_intror eq_refl) eq_refl).
Defined.

Example amount_that_is_no_number_run :
  reported (exec quiet_world
              (createInvoice no_state (invoice_submission "c1" "twelve" "paid")))
  = [("amount", ["Expected number, received nan"])].
Proof. vm_compute. reflexivity. Qed.

(** A submission with a status outside the enumeration and no customer. *)
Lemma unknown_status_is_reported :
  (CreateInvoiceHandler = CreateInvoiceHandler
   \/ CreateInvoiceHandler = UpdateInvoiceHandler)
  /\ is_string (get [("amount", EntryString "5"); ("status", EntryString "draft")]
                  "customerId") = false
  /\ get [("amount", EntryString "5"); ("status", EntryString "draft")] "status"
     = Str "draft"
  /\ In ("customerId", ["Please select a customer."])
        (reported (exec quiet_world
                     (call plain_email CreateInvoiceHandler "" no_state
                        [("amount", EntryString "5"); ("status", EntryString "draft")])))
  /\ In ("status", ["Invalid enum value. Expected 'pending' | 'paid', received 'draft'"])
        (reported (exec quiet_world
                     (call plain_email CreateInvoiceHandler "" no_state
                        [("amount", EntryString "5"); ("status", EntryString "draft")]))).
Proof.
  split; [left; reflexivity |]. split; [reflexivity |]. split; [reflexivity |].
  pose proof (customer_and_status_are_reported plain_email CreateInvoiceHandler ""
                no_state [("amount", EntryString "5"); ("status", EntryString "draft")]
                quiet_world (or_introl eq_refl)) as (C & _ & S).
  split.
  - exact (proj2 (C eq_refl)).
  - apply (S "draft" eq_refl); discriminate.
Defined.

(** A customer named "Jo" with the email "jo". *)
Lemma short_name_is_reported :
  (CreateCustomerHandler = CreateCustomerHandler
   \/ CreateCustomerHandler = UpdateCustomerHandler)
  /\ (String.length "Jo" < 4)%nat
  /\ plain_email "jo" = false
  /\ In ("name", ["Please enter your full name."])
        (reported (exec quiet_world
                     (call plain_email CreateCustomerHandler "" no_state
                        [("name", EntryString "Jo"); ("email", EntryString "jo")])))
  /\ In ("email", ["Please enter a valid email address."])
        (reported (exec quiet_world
                     (call plain_email CreateCustomerHandler "" no_state
                        [("name", EntryString "Jo"); ("email", EntryString "jo")]))).
Proof.
  split; [left; reflexivity |]. split; [simpl; lia |]. split; [reflexivity |].
  pose proof (customer_fields_are_reported plain_email CreateCustomerHandler ""
                no_state [("name", EntryString "Jo"); ("email", EntryString "jo")]
                quiet_world (or_introl eq_refl)) as (N & E & _).
  split.
  - apply (N "Jo" eq_refl). simpl. lia.
  - apply (E "jo" eq_refl). reflexivity.
Defined.

(** The values of the INSERT of the invoice of 12.50. *)
Lemma invoice_insert_values :
  (CreateInvoiceHandler = CreateInvoiceHandler
   \/ CreateInvoiceHandler = UpdateInvoiceHandler)
  /\ In (InsertInvoice, [Str "c1"; Num 1250; Str "pending"; Str "2024-02-29"])
        (statements (trace (exec quiet_world
                              (call plain_email CreateInvoiceHandler "" no_state
                                 (invoice_submission "c1" "12.50" "pending")))))
  /\ exists customerId status,
      get (invoice_submission "c1" "12.50" "pending") "customerId" = Str customerId
      /\ get (invoice_submission "c1" "12.50" "pending") "status" = Str status
      /\ (status = "pending" \/ status = "paid")
      /\ PrimFloat.ltb zero
           (JsNumber.ToNumber (get (invoice_submission "c1" "12.50" "pending") "amount"))
         = true
      /\ InsertInvoice = statement_of CreateInvoiceHandler
      /\ [Str "c1"; Num 1250; Str "pending"; Str "2024-02-29"]
         = [ Str customerId;
             Num (JsNumber.ToNumber
                    (get (invoice_submission "c1" "12.50" "pending") "amount") * 100)%float;
             Str status;
             Str (JsDate.date_string (clock quiet_world)) ].
Proof.
  split; [left; reflexivity |].
  assert (In (InsertInvoice, [Str "c1"; Num 1250; Str "pending"; Str "2024-02-29"])
            (statements (trace (exec quiet_world
                                  (call plain_email CreateInvoiceHandler "" no_state
                                     (invoice_submission "c1" "12.50" "pending"))))))
    as I by (vm_compute; left; reflexivity).
  split; [exact I |].
  exact (only_valid_invoices_reach_the_database plain_email CreateInvoiceHandler ""
           no_state (invoice_submission "c1" "12.50" "pending") quiet_world
           InsertInvoice [Str "c1"; Num 1250; Str "pending"; Str "2024-02-29"]
           (or_introl eq_refl) I).
Defined.

(** The values of the INSERT of Jane Doe with an image. *)
Lemma customer_insert_values :
  In (InsertCustomer, [Str "Jane Doe"; Str "jane@x.com"; Str "/customers/jane.png"])
     (statements (trace (exec quiet_world
                           (createCustomer plain_email no_state
                              (("image", EntryString "/customers/jane.png") :: jane_doe)))))
  /\ exists name email image,
      get (("image", EntryString "/customers/jane.png") :: jane_doe) "name" = Str name
      /\ get (("image", EntryString "/customers/jane.png") :: jane_doe) "email" = Str email
      /\ get (("image", EntryString "/customers/jane.png") :: jane_doe) "image" = Str image
      /\ (4 <= String.length name)%nat
      /\ plain_email email = true
      /\ InsertCustomer = InsertCustomer
      /\ [Str "Jane Doe"; Str "jane@x.com"; Str "/customers/jane.png"]
         = [Str name; Str email; Str image].
Proof.
  assert (In (InsertCustomer,
              [Str "Jane Doe"; Str "jane@x.com"; Str "/customers/jane.png"])
            (statements (trace (exec quiet_world
                                  (createCustomer plain_email no_state
                                     (("image", EntryString "/customers/jane.png")
                                        :: jane_doe))))))
    as I by (vm_compute; left; reflexivity).
  split; [exact I |].
  exact (only_valid_customers_reach_the_database plain_email no_state
           (("image", EntryString "/customers/jane.png") :: jane_doe) quiet_world
           InsertCustomer [Str "Jane Doe"; Str "jane@x.com"; Str "/customers/jane.png"] I).
Defined.

(** The values of the INSERT of Jane Doe's account, which the database
    refuses: the hash is bound and has been printed. *)
Lemma user_insert_values :
  In (InsertUser,
      [Str "jane@x.com"; Str (bcrypt failing_world "correct horse" 10); Str "Jane Doe"])
     (statements (trace (exec failing_world
                           (createUser plain_email no_state jane_doe_user))))
  /\ exists name email password,
      get jane_doe_user "name" = Str name
      /\ get jane_doe_user "email" = Str email
      /\ get jane_doe_user "password" = Str password
      /\ (8 <= String.length password)%nat
      /\ plain_email email = true
      /\ InsertUser = InsertUser
      /\ [Str "jane@x.com"; Str (bcrypt failing_world "correct horse" 10); Str "Jane Doe"]
         = [Str email; Str (bcrypt failing_world password 10); Str name]
      /\ printed (trace (exec failing_world
                           (createUser plain_email no_state jane_doe_user)))
         = [[Str email; Str (bcrypt failing_world password 10)]]
      /\ hd_error (trace (exec failing_world
                            (createUser plain_email no_state jane_doe_user)))
         = Some (Called (BcryptHash (Str password) 10)).
Proof.
  assert (In (InsertUser,
              [Str "jane@x.com"; Str (bcrypt failing_world "correct horse" 10);
               Str "Jane Doe"])
            (statements (trace (exec failing_world
                                  (createUser plain_email no_state jane_doe_user)))))
    as I by (vm_compute; left; reflexivity).
  split; [exact I |].
  exact (user_insert_binds_the_hash plain_email no_state jane_doe_user failing_world
           InsertUser
           [Str "jane@x.com"; Str (bcrypt failing_world "correct horse" 10);
            Str "Jane Doe"] I).
Defined.

(** The date of the invoice of 2024-02-29. *)
Lemma leap_day_is_well_formed :
  0 <= clock quiet_world < 253402300800000
  /\ rejected plain_email CreateInvoiceHandler
       (invoice_submission "c1" "12.50" "pending") = false
  /\ exists customerId amountInCents status year month day,
      statements (trace (exec quiet_world
                           (createInvoice no_state
                              (invoice_submission "c1" "12.50" "pending"))))
      = [ (InsertInvoice,
           [ customerId; amountInCents; status;
             Str (JsDate.pad 4 year ++ "-" ++ JsDate.pad 2 month ++ "-"
                    ++ JsDate.pad 2 day) ]) ]
      /\ 1970 <= year <= 9999
      /\ 1 <= month <= 12
      /\ 1 <= day <= 31
      /\ String.length (JsDate.pad 4 year ++ "-" ++ JsDate.pad 2 month ++ "-"
                          ++ JsDate.pad 2 day) = 10%nat.
Proof.
  split; [simpl; lia |]. split; [vm_compute; reflexivity |].
  apply (invoice_date_is_well_formed plain_email no_state
           (invoice_submission "c1" "12.50" "pending") quiet_world).
  - simpl. lia.
  - vm_compute. reflexivity.
Defined.

(** [authenticate] when the provider resolves. *)
Lemma authenticate_on_a_session :
  signIn (with_signIn quiet_world (Fulfilled (Str "session"))) "credentials" jane_doe_user
  = Fulfilled (Str "session")
  /\ trace (exec (with_signIn quiet_world (Fulfilled (Str "session")))
              (authenticate None jane_doe_user))
     = [Called (SignIn "credentials" jane_doe_user)]
  /\ pending (exec (with_signIn quiet_world (Fulfilled (Str "session")))
                (authenticate None jane_doe_user))
     = []
  /\ completion (exec (with_signIn quiet_world (Fulfilled (Str "session")))
                   (authenticate None jane_doe_user))
     = Fulfilled Undefined.
Proof.
  split; [reflexivity |].
  pose proof (authenticate_calls_the_provider_once None jane_doe_user
                (with_signIn quiet_world (Fulfilled (Str "session")))) as (T & P & C).
  split; [exact T |]. split; [exact P |]. exact (C (Str "session") eq_refl).
Defined.

(** A user with the password "horse" and the email "jane". *)
Lemma short_password_is_reported :
  (String.length "horse" < 8)%nat
  /\ plain_email "jane" = false
  /\ trace (exec quiet_world
              (createUser plain_email no_state
                 [ ("name", EntryString "Jane Doe"); ("email", EntryString "jane");
                   ("password", EntryString "horse") ]))
     = []
  /\ In ("password", ["String must contain at least 8 character(s)"])
        (reported (exec quiet_world
                     (createUser plain_email no_state
                        [ ("name", EntryString "Jane Doe"); ("email", EntryString "jane");
                          ("password", EntryString "horse") ])))
  /\ In ("email", ["Invalid email"])
        (reported (exec quiet_world
                     (createUser plain_email no_state
                        [ ("name", EntryString "Jane Doe"); ("email", EntryString "jane");
                          ("password", EntryString "horse") ]))).
Proof.
  split; [simpl; lia |]. split; [reflexivity |].
  pose proof (user_fields_are_reported plain_email no_state
                [ ("name", EntryString "Jane Doe"); ("email", EntryString "jane");
                  ("password", EntryString "horse") ] quiet_world) as (P & E).
  assert (String.length "horse" < 8)%nat as L by (simpl; lia).
  split; [exact (proj1 (P "horse" eq_refl L)) |].
  split; [exact (proj2 (P "horse" eq_refl L)) |].
  exact (proj2 (E "jane" eq_refl eq_refl)).
Defined.
